(** * pdf2image: a shallow embedding of [tools/pdf2image.py]

    The tool receives a dictionary of parameters, opens every uploaded PDF
    with PyMuPDF, renders its pages, stacks them vertically into one Pillow
    image and yields that image as a PNG blob.  The generator
    [Pdf2imageTool._invoke] is embedded as a computation in a small monad
    that threads the yielded messages, the log, and the set of document
    handles that are open, and that can raise a Python exception.

    PyMuPDF and Pillow are not part of the repository: they enter as records
    of operations ([FitzModule], [PilModule]) and every statement below is
    proved for all of them. *)

From Stdlib Require Import ZArith Ascii String.
From Stdlib.Strings Require Import Byte.
From stdpp Require Import base list strings gmap.

Local Open Scope Z_scope.

(** ** Python values *)

Definition bytes := list byte.

(** Exceptions: the class decides which [except] clause catches it, [str(e)]
    is what the handlers print.  Every class below derives from [Exception];
    [ModuleNotFoundError] is counted as [ImportError], its base class. *)
Inductive ExnClass :=
  | ImportError
  | ValidationError
  | ValueError
  | IndexError
  | OtherException.

Record Exn := mkExn { exn_class : ExnClass; exn_str : string }.

Definition is_ImportError (e : Exn) : bool :=
  match exn_class e with ImportError => true | _ => false end.

(** [except Exception]: catches every exception of the model. *)
Definition is_Exception (e : Exn) : bool := true.

(** A call either returns or raises. *)
Inductive result (A : Type) :=
  | Ok (a : A)
  | Raise (e : Exn).
Arguments Ok {A} a.
Arguments Raise {A} e.

Global Instance result_ret : MRet result := λ A a, Ok a.
Global Instance result_bind : MBind result := λ A B f r,
  match r with Ok a => f a | Raise e => Raise e end.

(** ** The data model *)

(** [dify_plugin.file.file.File], reduced to the two attributes the tool
    reads. *)
Record File := mkFile { filename : string; blob : bytes }.

(** What the host can put under a key of [tool_parameters]. *)
Inductive PyValue :=
  | PyNone
  | PyFiles (fs : list File)
  | PyStr (s : string).

#[warnings="-register-all"] Inductive Json :=
  | JString (s : string)
  | JObject (members : gmap string Json).

(** [ToolInvokeMessage], as built by [create_text_message],
    [create_blob_message] and [create_json_message]. *)
Inductive ToolInvokeMessage :=
  | TextMessage (text : string)
  | BlobMessage (data : bytes) (meta : gmap string string)
  | JsonMessage (json : Json).

Definition create_text_message (text : string) : ToolInvokeMessage :=
  TextMessage text.
Definition create_blob_message (data : bytes) (meta : gmap string string)
  : ToolInvokeMessage := BlobMessage data meta.
Definition create_json_message (json : Json) : ToolInvokeMessage :=
  JsonMessage json.

Definition is_blob (m : ToolInvokeMessage) : bool :=
  match m with BlobMessage _ _ => true | _ => false end.
Definition is_json (m : ToolInvokeMessage) : bool :=
  match m with JsonMessage _ => true | _ => false end.

(** ** The rendering engine (PyMuPDF) *)

Record Pixmap := mkPixmap { pix_width : Z; pix_height : Z; samples : bytes }.

Record Page := mkPage { get_pixmap : result Pixmap }.

Record Document := mkDocument {
  page_count : Z;
  load_page : Z → result Page
}.

Record FitzModule := mkFitz { fitz_open : bytes → result Document }.

(** ** The imaging library (Pillow) *)

Record Image := mkImage { width : Z; height : Z; im_data : bytes }.

(** The image made by [Image.new], together with what has been pasted on it,
    oldest paste first. *)
Record Canvas := mkCanvas {
  canvas_width : Z;
  canvas_height : Z;
  pasted : list (Image * (Z * Z))
}.

Definition Image_new (size : Z * Z) : Canvas :=
  {| canvas_width := size.1; canvas_height := size.2; pasted := [] |}.

Definition paste (c : Canvas) (img : Image) (box : Z * Z) : Canvas :=
  {| canvas_width := canvas_width c; canvas_height := canvas_height c;
     pasted := pasted c ++ [(img, box)] |}.

Record PilModule := mkPil {
  Image_frombytes : Z * Z → bytes → result Image;
  save_PNG : Canvas → result bytes
}.

(** What the three [import] statements find. *)
Record Environment := mkEnv {
  import_pymupdf : result FitzModule;
  import_fitz : result FitzModule;
  import_PIL_Image : result PilModule
}.

(** ** Strings *)

(** The last occurrence of [sep] in [s]: what is before it and what is
    after it. *)
Fixpoint rsplit_once (sep : ascii) (s : string) : option (string * string) :=
  match s with
  | EmptyString => None
  | String c rest =>
      match rsplit_once sep rest with
      | Some (pre, post) => Some (String c pre, post)
      | None => if Ascii.eqb c sep then Some (EmptyString, rest) else None
      end
  end.

(** [s.rsplit(sep, 1)] for a one-character separator. *)
Definition rsplit1 (s : string) (sep : ascii) : list string :=
  match rsplit_once sep s with
  | Some (pre, post) => [pre; post]
  | None => [s]
  end.

(** [l[0]] *)
Definition index0 {A} (l : list A) : result A :=
  match l with
  | x :: _ => Ok x
  | [] => Raise (mkExn IndexError "list index out of range")
  end.

(** [f"{filename.rsplit('.', 1)[0]}.png"] *)
Definition png_filename (name : string) : result string :=
  stem ← index0 (rsplit1 name ".");
  mret (stem +:+ ".png").

Fixpoint contains (c : ascii) (s : string) : bool :=
  match s with
  | EmptyString => false
  | String d rest => Ascii.eqb d c || contains c rest
  end.

(** ** Merging the page images *)

(** [max(xs)] *)
Definition py_max (xs : list Z) : result Z :=
  match xs with
  | [] => Raise (mkExn ValueError "max() arg is an empty sequence")
  | x :: rest => Ok (fold_left Z.max rest x)
  end.

(** [sum(xs)] *)
Definition py_sum (xs : list Z) : Z := fold_left Z.add xs 0.

(** The loop of lines 81-84. *)
Fixpoint paste_images (combined_image : Canvas) (y_offset : Z)
    (images : list Image) : Canvas :=
  match images with
  | [] => combined_image
  | img :: rest =>
      paste_images (paste combined_image img (0, y_offset))
                   (y_offset + height img) rest
  end.

(** Lines 77-84. *)
Definition merge_images (images : list Image) : result Canvas :=
  total_width ← py_max (width <$> images);
  let total_height := py_sum (height <$> images) in
  let combined_image := Image_new (total_width, total_height) in
  mret (paste_images combined_image 0 images).

(** The loop of lines 63-67 over the remaining page numbers. *)
Fixpoint render_pages (pil : PilModule) (doc : Document)
    (page_nums : list Z) (images : list Image) : result (list Image) :=
  match page_nums with
  | [] => Ok images
  | page_num :: rest =>
      page ← load_page doc page_num;
      pix ← get_pixmap page;
      img ← Image_frombytes pil (pix_width pix, pix_height pix) (samples pix);
      render_pages pil doc rest (images ++ [img])
  end.

(** [range(n)] *)
Definition range (n : Z) : list Z := seqZ 0 n.

(** ** The generator *)

Inductive LogLevel := INFO | ERROR.

(** What a run has done so far: the messages yielded, oldest first; the
    records sent to [logger]; the handles of the documents that are open;
    the handle the next [open] returns. *)
Record State := mkState {
  out : list ToolInvokeMessage;
  logged : list (LogLevel * string);
  live : list nat;
  next_handle : nat
}.

Definition initial : State :=
  {| out := []; logged := []; live := []; next_handle := 0%nat |}.

Definition Gen (A : Type) : Type := State → result A * State.

Global Instance Gen_ret : MRet Gen := λ A a s, (Ok a, s).
Global Instance Gen_bind : MBind Gen := λ A B f m s,
  match m s with
  | (Ok a, s') => f a s'
  | (Raise e, s') => (Raise e, s')
  end.

Definition lift {A} (r : result A) : Gen A := λ s, (r, s).

Definition yield (m : ToolInvokeMessage) : Gen unit := λ s,
  (Ok (), {| out := out s ++ [m]; logged := logged s;
             live := live s; next_handle := next_handle s |}).

Definition logger (lvl : LogLevel) (msg : string) : Gen unit := λ s,
  (Ok (), {| out := out s; logged := logged s ++ [(lvl, msg)];
             live := live s; next_handle := next_handle s |}).

(** [try: body except <catches> as e: handler e].  What the body did before
    it raised stays done. *)
Definition try_except {A} (body : Gen A) (catches : Exn → bool)
    (handler : Exn → Gen A) : Gen A := λ s,
  match body s with
  | (Ok a, s') => (Ok a, s')
  | (Raise e, s') => if catches e then handler e s' else (Raise e, s')
  end.

(** [fitz_module.open(stream=..., filetype="pdf")]: a document that opens
    gets a fresh handle, which is live until it is closed. *)
Definition open (fitz_module : FitzModule) (stream : bytes)
  : Gen (nat * Document) := λ s,
  match fitz_open fitz_module stream with
  | Ok doc =>
      (Ok (next_handle s, doc),
       {| out := out s; logged := logged s;
          live := live s ++ [next_handle s];
          next_handle := S (next_handle s) |})
  | Raise e => (Raise e, s)
  end.

(** [doc.close()] *)
Definition close (h : nat) : Gen unit := λ s,
  (Ok (), {| out := out s; logged := logged s;
             live := filter (λ h', h' ≠ h) (live s);
             next_handle := next_handle s |}).

(** [tool_parameters.get(key)] *)
Definition dict_get (d : gmap string PyValue) (key : string) : PyValue :=
  default PyNone (d !! key).

Definition is_None (v : PyValue) : bool :=
  match v with PyNone => true | _ => false end.

(** The constructor call of line 31: pydantic accepts a list of files
    under [files], ignores the other keys, and raises otherwise. *)
Record ToolParameters := mkToolParameters { files : list File }.

Definition ToolParameters_validate (tool_parameters : gmap string PyValue)
  : result ToolParameters :=
  match tool_parameters !! "files" with
  | Some (PyFiles fs) => Ok (mkToolParameters fs)
  | _ => Raise (mkExn ValidationError "1 validation error for ToolParameters")
  end.

(** Lines 53-99: the body of the [try] of one iteration. *)
Definition convert (fitz_module : FitzModule) (pil : PilModule) (file : File)
  : Gen unit :=
  logger INFO ("Processing file: " +:+ filename file);;
  '(h, doc) ← open fitz_module (blob file);
  images ← lift (render_pages pil doc (range (page_count doc)) []);
  close h;;
  match images with
  | [] => yield (create_text_message ("No pages found in " +:+ filename file))
  | _ =>
      combined_image ← lift (merge_images images);
      image_bytes ← lift (save_PNG pil combined_image);
      name ← lift (png_filename (filename file));
      yield (create_blob_message image_bytes
               (<["mime_type" := "image/png"]> (<["filename" := name]> ∅)))
  end.

(** Lines 101-107: the handler of one iteration. *)
Definition report (file : File) (e : Exn) : Gen unit :=
  let error_msg := "Error processing " +:+ filename file +:+ ": " +:+ exn_str e in
  logger ERROR error_msg;;
  yield (create_text_message error_msg);;
  yield (create_json_message
           (JObject {[ filename file :=
                         JObject {[ "error" := JString (exn_str e) ]} ]})).

(** Lines 52-107: one iteration of the loop over the files. *)
Definition process_file (fitz_module : FitzModule) (pil : PilModule)
    (file : File) : Gen unit :=
  try_except (convert fitz_module pil file) is_Exception (report file).

(** Lines 51-107: [for file in files]. *)
Fixpoint process_files (fitz_module : FitzModule) (pil : PilModule)
    (files : list File) : Gen unit :=
  match files with
  | [] => mret ()
  | file :: rest =>
      process_file fitz_module pil file;;
      process_files fitz_module pil rest
  end.

Definition no_files_msg : string :=
  "No files provided. Please upload PDF files for processing.".

Definition pillow_msg : string :=
  "Error: Pillow library not installed. Please install it with 'pip install Pillow'.".

(** Lines 36-49: the imports.  [None] stands for the [return] of line 49. *)
Definition import_modules (env : Environment)
  : Gen (option (FitzModule * PilModule)) :=
  fitz_module ← try_except (lift (import_pymupdf env)) is_ImportError
                   (λ _, lift (import_fitz env));
  try_except
    (pil ← lift (import_PIL_Image env); mret (Some (fitz_module, pil)))
    is_ImportError
    (λ _, logger ERROR pillow_msg;;
          yield (create_text_message pillow_msg);;
          mret None).

(** [Pdf2imageTool._invoke] *)
Definition _invoke (env : Environment) (tool_parameters : gmap string PyValue)
  : Gen unit :=
  if is_None (dict_get tool_parameters "files") then
    yield (create_text_message no_files_msg)
  else
    params ← lift (ToolParameters_validate tool_parameters);
    let files := files params in
    try_except
      (modules ← import_modules env;
       match modules with
       | None => mret ()
       | Some (fitz_module, pil) => process_files fitz_module pil files
       end)
      is_ImportError
      (λ e,
         let error_msg :=
           "Error: Required library not installed. " +:+ exn_str e in
         logger ERROR error_msg;;
         yield (create_text_message error_msg)).

(** The messages the host receives from a call. *)
Definition messages (env : Environment) (tool_parameters : gmap string PyValue)
  : list ToolInvokeMessage :=
  out (_invoke env tool_parameters initial).2.

(** ** What the statements below speak of *)

(** The messages one file contributes, and those of a batch. *)
Definition file_messages (fitz_module : FitzModule) (pil : PilModule)
    (file : File) : list ToolInvokeMessage :=
  out (process_file fitz_module pil file initial).2.

Definition batch_messages (fitz_module : FitzModule) (pil : PilModule)
    (files : list File) : list ToolInvokeMessage :=
  out (process_files fitz_module pil files initial).2.

(** The imports succeed and bind [fitz_module] and [Image]. *)
Definition loads (env : Environment) (fitz_module : FitzModule)
    (pil : PilModule) : Prop :=
  (import_modules env initial).1 = Ok (Some (fitz_module, pil)).

(** The pages of a file: the document is opened and every page rendered. *)
Definition pages (fitz_module : FitzModule) (pil : PilModule) (file : File)
  : result (list Image) :=
  doc ← fitz_open fitz_module (blob file);
  render_pages pil doc (range (page_count doc)) [].

(** A file converts: it has pages, and they are merged and encoded as
    [png]. *)
Definition converts (fitz_module : FitzModule) (pil : PilModule)
    (file : File) (png : bytes) : Prop :=
  ∃ images canvas,
    pages fitz_module pil file = Ok images ∧ images ≠ [] ∧
    merge_images images = Ok canvas ∧ save_PNG pil canvas = Ok png.

(** The two messages of the handler of lines 101-107. *)
Definition error_text (file : File) (e : Exn) : ToolInvokeMessage :=
  TextMessage ("Error processing " +:+ filename file +:+ ": " +:+ exn_str e).

Definition error_json (file : File) (e : Exn) : ToolInvokeMessage :=
  JsonMessage
    (JObject {[ filename file := JObject {[ "error" := JString (exn_str e) ]} ]}).

Definition Zsum (xs : list Z) : Z := foldr Z.add 0 xs.

(** The metadata of a Blob message. *)
Definition blob_meta (name : string) : gmap string string :=
  <["mime_type" := "image/png"]> (<["filename" := name]> ∅).

(** A dependency is missing, and [text] is the message that says so: PyMuPDF
    can be imported neither as [pymupdf] nor as [fitz]; or PyMuPDF is there
    and Pillow cannot be imported. *)
Inductive unavailable (env : Environment) : string → Prop :=
  | rendering_unavailable e1 e2 :
      import_pymupdf env = Raise e1 → is_ImportError e1 = true →
      import_fitz env = Raise e2 → is_ImportError e2 = true →
      unavailable env ("Error: Required library not installed. " +:+ exn_str e2)
  | imaging_unavailable fitz_module e :
      (import_pymupdf env = Ok fitz_module ∨
       ∃ e1, import_pymupdf env = Raise e1 ∧ is_ImportError e1 = true ∧
             import_fitz env = Ok fitz_module) →
      import_PIL_Image env = Raise e → is_ImportError e = true →
      unavailable env pillow_msg.

(** ** A small environment

    A PyMuPDF that opens three streams: an empty document, a document of
    two pages of different sizes, and a document whose page cannot be
    loaded; a Pillow that accepts every buffer. *)
Definition ex_page (w h : Z) : result Page :=
  Ok (mkPage (Ok (mkPixmap w h []))).

Definition ex_two_pages : Document :=
  mkDocument 2 (λ i, if decide (i = 0) then ex_page 10 20 else ex_page 30 5).

Definition ex_no_pages : Document :=
  mkDocument 0 (λ _, Raise (mkExn ValueError "page not in document")).

Definition ex_bad_page : Document :=
  mkDocument 1 (λ _, Raise (mkExn OtherException "cannot load page")).

Definition ex_fitz : FitzModule :=
  mkFitz (λ stream,
    match stream with
    | [] => Ok ex_no_pages
    | [x01] => Ok ex_two_pages
    | [x02] => Ok ex_bad_page
    | _ => Raise (mkExn OtherException "Failed to open stream")
    end).

Definition ex_pil : PilModule :=
  mkPil (λ size data, Ok (mkImage size.1 size.2 data)) (λ _, Ok [x89; x50]).

Definition no_module (name : string) : Exn :=
  mkExn ImportError ("No module named '" +:+ name +:+ "'").

Definition ex_env : Environment :=
  mkEnv (Ok ex_fitz) (Raise (no_module "fitz")) (Ok ex_pil).

Definition ex_env_bare : Environment :=
  mkEnv (Raise (no_module "pymupdf")) (Raise (no_module "fitz"))
        (Raise (no_module "PIL")).

Definition ex_good : File := mkFile "report.pdf" [x01].
Definition ex_good2 : File := mkFile "scan.v2.pdf" [x01].
Definition ex_plain : File := mkFile "README" [x01].
Definition ex_corrupt : File := mkFile "file2.pdf" [x07].
Definition ex_empty : File := mkFile "blank.pdf" [].
Definition ex_broken : File := mkFile "broken.pdf" [x02].

Definition with_files (fs : list File) : gmap string PyValue :=
  {[ "files" := PyFiles fs ]}.

(** ** More vocabulary *)

(** Lines 64-66: what the loop does with one page. *)
Definition render_page (pil : PilModule) (doc : Document) (page_num : Z)
  : result Image :=
  page ← load_page doc page_num;
  pix ← get_pixmap page;
  Image_frombytes pil (pix_width pix, pix_height pix) (samples pix).

(** The document of the file opens. *)
Definition opens (fitz_module : FitzModule) (file : File) : bool :=
  match fitz_open fitz_module (blob file) with
  | Ok _ => true
  | Raise _ => false
  end.

(** The document of the file opens and one of its pages fails to render. *)
Definition render_fails (fitz_module : FitzModule) (pil : PilModule)
    (file : File) : bool :=
  match fitz_open fitz_module (blob file) with
  | Ok doc =>
      match render_pages pil doc (range (page_count doc)) [] with
      | Ok _ => false
      | Raise _ => true
      end
  | Raise _ => false
  end.

(** The iteration of the file ends in the handler. *)
Definition fails (fitz_module : FitzModule) (pil : PilModule) (file : File)
  : bool :=
  match (convert fitz_module pil file initial).1 with
  | Ok _ => false
  | Raise _ => true
  end.

(** The log records one file contributes. *)
Definition file_logged (fitz_module : FitzModule) (pil : PilModule)
    (file : File) : list (LogLevel * string) :=
  logged (process_file fitz_module pil file initial).2.

Definition is_INFO (r : LogLevel * string) : bool :=
  match r.1 with INFO => true | ERROR => false end.

Definition is_ERROR (r : LogLevel * string) : bool :=
  match r.1 with ERROR => true | INFO => false end.

(** Every live handle was handed out by an earlier [open]. *)
Definition handles_ok (s : State) : Prop :=
  Forall (λ h, (h < next_handle s)%nat) (live s).

(** PyMuPDF is found, under one of its two names. *)
Definition rendering_found (env : Environment) (fitz_module : FitzModule)
  : Prop :=
  import_pymupdf env = Ok fitz_module ∨
  ∃ e, import_pymupdf env = Raise e ∧ is_ImportError e = true ∧
       import_fitz env = Ok fitz_module.

(** An import raises something that is not an [ImportError]. *)
Inductive import_crash (env : Environment) : Exn → Prop :=
  | crash_pymupdf e :
      import_pymupdf env = Raise e → is_ImportError e = false →
      import_crash env e
  | crash_fitz e1 e :
      import_pymupdf env = Raise e1 → is_ImportError e1 = true →
      import_fitz env = Raise e → is_ImportError e = false →
      import_crash env e
  | crash_PIL fitz_module e :
      rendering_found env fitz_module →
      import_PIL_Image env = Raise e → is_ImportError e = false →
      import_crash env e.

(** Why the [try] body of a file raises [e]: the document does not open or
    a page does not render; or the pages are merged and not encoded. *)
Definition convert_error (fitz_module : FitzModule) (pil : PilModule)
    (file : File) (e : Exn) : Prop :=
  pages fitz_module pil file = Raise e ∨
  ∃ images canvas,
    pages fitz_module pil file = Ok images ∧ images ≠ [] ∧
    merge_images images = Ok canvas ∧ save_PNG pil canvas = Raise e.

(** The state of a call that ends after one Text message. *)
Definition one_text_state (text : string) (logs : list (LogLevel * string))
  : State :=
  {| out := [TextMessage text]; logged := logs; live := [];
     next_handle := 0%nat |}.

(** An installation that has PyMuPDF only under its old name. *)
Definition ex_env_old : Environment :=
  mkEnv (Raise (no_module "pymupdf")) (Ok ex_fitz) (Ok ex_pil).

(** A Pillow whose PNG encoder fails. *)
Definition ex_pil_no_png : PilModule :=
  mkPil (λ size data, Ok (mkImage size.1 size.2 data))
        (λ _, Raise (mkExn OtherException "encoder error")).

(** An installation whose PyMuPDF breaks while it is imported. *)
Definition ex_env_crash : Environment :=
  mkEnv (Raise (mkExn OtherException "libmupdf.so: cannot open shared object file"))
        (Ok ex_fitz) (Ok ex_pil).

(** A document of three pages: the first renders, the second cannot be
    loaded, the third would fail in another way. *)
Definition ex_second_page_bad : Document :=
  mkDocument 3 (λ i,
    if decide (i = 0) then ex_page 10 20
    else if decide (i = 1) then Raise (mkExn OtherException "bad xref")
    else Ok (mkPage (Raise (mkExn OtherException "out of memory")))).

Definition ex_fitz_partial : FitzModule := mkFitz (λ _, Ok ex_second_page_bad).

(** The file converts, as a test: its pages render, there is at least one,
    and the merged image is encoded. *)
Definition converted (fitz_module : FitzModule) (pil : PilModule)
    (file : File) : bool :=
  match pages fitz_module pil file with
  | Ok (img :: images) =>
      match merge_images (img :: images) with
      | Ok canvas =>
          match save_PNG pil canvas with Ok _ => true | Raise _ => false end
      | Raise _ => false
      end
  | _ => false
  end.

(** * Strings *)

Lemma rsplit_once_absent sep s :
  contains sep s = false → rsplit_once sep s = None.
Proof.
  induction s as [|c s IH]; simpl; [done|].
  destruct (Ascii.eqb c sep); simpl; [done|].
  intros H. by rewrite IH.
Qed.

Lemma rsplit_once_last sep pre post :
  contains sep post = false →
  rsplit_once sep (pre +:+ String sep post) = Some (pre, post).
Proof.
  intros H. induction pre as [|c pre IH]; simpl.
  - by rewrite rsplit_once_absent, Ascii.eqb_refl.
  - by rewrite IH.
Qed.

Lemma rsplit_once_some sep s pre post :
  rsplit_once sep s = Some (pre, post) →
  s = pre +:+ String sep post ∧ contains sep post = false.
Proof.
  revert pre. induction s as [|c s IH]; simpl; [done|]. intros pre.
  destruct (rsplit_once sep s) as [[pre' post']|] eqn:E.
  - intros [= <- <-]. destruct (IH _ eq_refl) as [-> ?]. done.
  - destruct (Ascii.eqb c sep) eqn:Ec; [|done].
    intros [= <- <-]. apply Ascii.eqb_eq in Ec as ->. simpl. split; [done|].
    clear IH. induction s as [|d s IH]; simpl in *; [done|].
    destruct (rsplit_once sep s) as [[??]|]; [done|].
    destruct (Ascii.eqb d sep); [done|]. simpl. by apply IH.
Qed.

Lemma png_filename_total name : ∃ out_name, png_filename name = Ok out_name.
Proof.
  unfold png_filename, rsplit1.
  destruct (rsplit_once "." name) as [[pre post]|]; simpl; eauto.
Qed.

Lemma png_filename_dot stem ext :
  contains "." ext = false →
  png_filename (stem +:+ String "." ext) = Ok (stem +:+ ".png").
Proof.
  intros H. unfold png_filename, rsplit1. by rewrite rsplit_once_last.
Qed.

Lemma png_filename_no_dot name :
  contains "." name = false → png_filename name = Ok (name +:+ ".png").
Proof.
  intros H. unfold png_filename, rsplit1. by rewrite rsplit_once_absent.
Qed.

(** * Merging *)

Lemma fold_left_add_acc xs a : fold_left Z.add xs a = a + Zsum xs.
Proof.
  revert a. induction xs as [|x xs IH]; intros a; simpl; [lia|].
  rewrite IH. unfold Zsum. lia.
Qed.

Lemma py_sum_Zsum xs : py_sum xs = Zsum xs.
Proof. unfold py_sum. by rewrite fold_left_add_acc. Qed.

Lemma fold_left_max_ge xs a : a ≤ fold_left Z.max xs a.
Proof.
  revert a. induction xs as [|x xs IH]; intros a; simpl; [lia|].
  specialize (IH (Z.max a x)). lia.
Qed.

Lemma fold_left_max_upper xs a x : x ∈ xs → x ≤ fold_left Z.max xs a.
Proof.
  revert a. induction xs as [|y xs IH]; intros a; [by intros ?%elem_of_nil|].
  intros [->|Hin]%elem_of_cons; simpl.
  - pose proof (fold_left_max_ge xs (Z.max a y)). lia.
  - by apply IH.
Qed.

Lemma fold_left_max_attained xs a :
  fold_left Z.max xs a = a ∨ fold_left Z.max xs a ∈ xs.
Proof.
  revert a. induction xs as [|x xs IH]; intros a; simpl; [by left|].
  destruct (IH (Z.max a x)) as [->|Hin].
  - destruct (Z.max_spec a x) as [[_ ->]|[_ ->]]; [right; left|by left].
  - right. by right.
Qed.

Lemma paste_images_size c y images :
  canvas_width (paste_images c y images) = canvas_width c ∧
  canvas_height (paste_images c y images) = canvas_height c.
Proof.
  revert c y. induction images as [|img images IH]; intros c y; simpl; [done|].
  by destruct (IH (paste c img (0, y)) (y + height img)) as [-> ->].
Qed.

Lemma paste_images_pasted c y images :
  pasted (paste_images c y images) =
  pasted c ++
  imap (λ i img, (img, (0, y + Zsum (height <$> take i images)))) images.
Proof.
  revert c y. induction images as [|img images IH]; intros c y; simpl.
  - by rewrite app_nil_r.
  - rewrite IH. simpl. rewrite <- app_assoc. simpl. f_equal.
    rewrite Z.add_0_r. f_equal.
    apply imap_ext. intros i x _. unfold Zsum. simpl. do 2 f_equal.
    symmetry. apply Z.add_assoc.
Qed.

(** * Running the generator *)

Ltac run_gen :=
  unfold mbind, mret, Gen_bind, Gen_ret, lift, yield, logger, open, close,
    try_except; cbn.

Arguments merge_images : simpl never.
Arguments png_filename : simpl never.

Section PerFile.
Variables (fitz_module : FitzModule) (pil : PilModule) (file : File).

(** What [convert] returns and yields does not depend on the state it
    starts from. *)
Lemma convert_frame s :
  (convert fitz_module pil file s).1 =
    (convert fitz_module pil file initial).1 ∧
  out (convert fitz_module pil file s).2 =
    out s ++ out (convert fitz_module pil file initial).2.
Proof.
  unfold convert. run_gen.
  destruct (fitz_open fitz_module (blob file)) as [doc|e]; cbn;
    [|by rewrite app_nil_r].
  destruct (render_pages pil doc (range (page_count doc)) [])
    as [[|img images]|e]; cbn; [done| |by rewrite app_nil_r].
  destruct (merge_images (img :: images)) as [canvas|e]; cbn;
    [|by rewrite app_nil_r].
  destruct (save_PNG pil canvas) as [png|e]; cbn; [|by rewrite app_nil_r].
  destruct (png_filename (filename file)) as [name|e]; cbn;
    [done|by rewrite app_nil_r].
Qed.

(** The three ways [convert] can end. *)
Lemma convert_cases :
  (∃ e, (convert fitz_module pil file initial).1 = Raise e ∧
        out (convert fitz_module pil file initial).2 = []) ∨
  ((convert fitz_module pil file initial).1 = Ok () ∧
   pages fitz_module pil file = Ok [] ∧
   out (convert fitz_module pil file initial).2 =
     [TextMessage ("No pages found in " +:+ filename file)]) ∨
  (∃ png name,
     (convert fitz_module pil file initial).1 = Ok () ∧
     converts fitz_module pil file png ∧
     png_filename (filename file) = Ok name ∧
     out (convert fitz_module pil file initial).2 =
       [BlobMessage png (blob_meta name)]).
Proof.
  unfold convert, converts, pages. run_gen.
  destruct (fitz_open fitz_module (blob file)) as [doc|e]; cbn;
    [|left; eauto].
  destruct (render_pages pil doc (range (page_count doc)) [])
    as [[|img images]|e]; cbn; [right; left; done| |left; eauto].
  destruct (merge_images (img :: images)) as [canvas|e] eqn:Hm; cbn;
    [|left; eauto].
  destruct (save_PNG pil canvas) as [png|e] eqn:Hs; cbn; [|left; eauto].
  destruct (png_filename (filename file)) as [name|e] eqn:Hn; cbn;
    [|left; eauto].
  right; right. exists png, name. repeat split; try done.
  exists (img :: images), canvas. done.
Qed.

Lemma converts_messages png :
  converts fitz_module pil file png →
  ∃ name, png_filename (filename file) = Ok name ∧
    (convert fitz_module pil file initial).1 = Ok () ∧
    out (convert fitz_module pil file initial).2 =
      [BlobMessage png (blob_meta name)].
Proof.
  intros (images & canvas & Hp & Hne & Hm & Hs).
  destruct (png_filename_total (filename file)) as [name Hn].
  exists name. split; [done|]. revert Hp.
  unfold convert, pages. run_gen.
  destruct (fitz_open fitz_module (blob file)) as [doc|e]; cbn; [|done].
  intros ->. simpl. destruct images as [|img images]; [done|].
  rewrite Hm. simpl. rewrite Hs. simpl. rewrite Hn. done.
Qed.

(** One iteration never raises, and yields after what was yielded before. *)
Lemma process_file_run s :
  (process_file fitz_module pil file s).1 = Ok () ∧
  out (process_file fitz_module pil file s).2 =
    out s ++ file_messages fitz_module pil file.
Proof.
  unfold file_messages, process_file, try_except.
  destruct (convert_frame s) as [Hr Ho]. revert Hr Ho.
  destruct (convert fitz_module pil file s) as [r s'].
  destruct (convert fitz_module pil file initial) as [r0 s0].
  simpl. intros -> Ho. destruct r0 as [[]|e]; cbn; [done|].
  split; [done|]. unfold report. run_gen. by rewrite Ho, <- !app_assoc.
Qed.

Lemma file_messages_raise e :
  (convert fitz_module pil file initial).1 = Raise e →
  file_messages fitz_module pil file = [error_text file e; error_json file e].
Proof.
  intros H. unfold file_messages, process_file, try_except.
  destruct convert_cases as [(e' & Hr & Ho)|[(Hr & _)|(? & ? & Hr & _)]];
    [|congruence..].
  revert H Hr Ho. destruct (convert fitz_module pil file initial) as [r s0].
  simpl. intros -> [= <-] Ho. unfold report. run_gen. by rewrite Ho.
Qed.

Lemma file_messages_ok :
  (convert fitz_module pil file initial).1 = Ok () →
  file_messages fitz_module pil file =
    out (convert fitz_module pil file initial).2.
Proof.
  unfold file_messages, process_file, try_except.
  destruct (convert fitz_module pil file initial) as [r s0].
  simpl. by intros ->.
Qed.
End PerFile.

Section Batch.
Variables (fitz_module : FitzModule) (pil : PilModule).

Lemma process_files_run files s :
  (process_files fitz_module pil files s).1 = Ok () ∧
  out (process_files fitz_module pil files s).2 =
    out s ++ concat (file_messages fitz_module pil <$> files).
Proof.
  revert s. induction files as [|file files IH]; intros s; cbn.
  - by rewrite app_nil_r.
  - unfold mbind, Gen_bind.
    destruct (process_file_run fitz_module pil file s) as [Hr Ho].
    revert Hr Ho. destruct (process_file fitz_module pil file s) as [r s'].
    simpl. intros -> Ho. destruct (IH s') as [-> ->].
    by rewrite Ho, <- app_assoc.
Qed.

Lemma batch_messages_concat files :
  batch_messages fitz_module pil files =
  concat (file_messages fitz_module pil <$> files).
Proof.
  unfold batch_messages. by destruct (process_files_run files initial) as [_ ->].
Qed.

Lemma batch_messages_app before after :
  batch_messages fitz_module pil (before ++ after) =
  batch_messages fitz_module pil before ++ batch_messages fitz_module pil after.
Proof. by rewrite !batch_messages_concat, fmap_app, concat_app. Qed.

Lemma batch_messages_cons file files :
  batch_messages fitz_module pil (file :: files) =
  file_messages fitz_module pil file ++ batch_messages fitz_module pil files.
Proof. by rewrite !batch_messages_concat. Qed.
End Batch.

(** Imports that succeed leave no trace. *)
Lemma import_modules_loaded env fitz_module pil s :
  loads env fitz_module pil →
  import_modules env s = (Ok (Some (fitz_module, pil)), s).
Proof.
  unfold loads, import_modules. run_gen.
  destruct (import_pymupdf env) as [fz|e]; cbn.
  - destruct (import_PIL_Image env) as [im|e']; cbn; [congruence|].
    destruct (is_ImportError e'); cbn; congruence.
  - destruct (is_ImportError e); cbn; [|done].
    destruct (import_fitz env) as [fz|e2]; cbn; [|done].
    destruct (import_PIL_Image env) as [im|e']; cbn; [congruence|].
    destruct (is_ImportError e'); cbn; congruence.
Qed.

(** With the list of files under [files] and both libraries imported, the
    call yields the messages of the batch and returns. *)
Lemma invoke_loaded env tool_parameters files fitz_module pil :
  tool_parameters !! "files" = Some (PyFiles files) →
  loads env fitz_module pil →
  (_invoke env tool_parameters initial).1 = Ok () ∧
  messages env tool_parameters = batch_messages fitz_module pil files.
Proof.
  intros Hf Hl.
  unfold messages, batch_messages, _invoke, dict_get, ToolParameters_validate.
  rewrite Hf. cbn. unfold try_except, mbind, Gen_bind, lift.
  rewrite (import_modules_loaded _ _ _ _ Hl). cbn.
  destruct (process_files_run fitz_module pil files initial) as [Hr Ho].
  revert Hr Ho.
  destruct (process_files fitz_module pil files initial) as [r s'].
  cbn. by intros -> _.
Qed.

(** * The claims *)

(** When [files] is absent from the parameters, or is [None], the call
    yields exactly one Text message, the one saying that no files were
    provided, and returns: nothing is logged and no document is opened,
    whatever the environment. *)
Theorem absent_files_one_text env (tool_parameters : gmap string PyValue) :
  tool_parameters !! "files" = None ∨
    tool_parameters !! "files" = Some PyNone →
  _invoke env tool_parameters initial =
    (Ok (), {| out := [TextMessage no_files_msg]; logged := [];
               live := []; next_handle := 0%nat |}).
Proof.
  unfold _invoke, dict_get. by intros [-> | ->].
Qed.

Lemma absent_files_one_text_instance :
  (∅ : gmap string PyValue) !! "files" = None ∧
  out (_invoke ex_env_bare ∅ initial).2 = [TextMessage no_files_msg].
Proof.
  split; [reflexivity|].
  rewrite (absent_files_one_text ex_env_bare ∅); [reflexivity|].
  left. reflexivity.
Defined.

(** With both libraries installed, the empty list yields no message at
    all. *)
Lemma empty_files_no_message :
  messages ex_env (with_files []) = [] ∧
  ¬ ∃ text, messages ex_env (with_files []) = [TextMessage text].
Proof.
  split; [reflexivity|]. intros [text H]. vm_compute in H. discriminate.
Qed.

(** An error while the document is opened or its pages are rendered is an
    error of [convert]. *)
Lemma pages_raise_convert fitz_module pil file e :
  pages fitz_module pil file = Raise e →
  (convert fitz_module pil file initial).1 = Raise e.
Proof.
  unfold pages, convert. run_gen.
  destruct (fitz_open fitz_module (blob file)) as [doc|e']; cbn.
  - by intros ->.
  - by intros [= ->].
Qed.

(** C2: an error raised while one file of a batch is converted is caught in
    that file's iteration.  The file contributes exactly the Text message
    "Error processing {filename}: {error}" followed by the Json message
    {filename: {"error": error}}; the call returns normally, and the files
    before and after it contribute what they contribute on their own. *)
Theorem file_error_isolated env (tool_parameters : gmap string PyValue)
    before file after fitz_module pil e :
  tool_parameters !! "files" = Some (PyFiles (before ++ file :: after)) →
  loads env fitz_module pil →
  (convert fitz_module pil file initial).1 = Raise e →
  (_invoke env tool_parameters initial).1 = Ok () ∧
  file_messages fitz_module pil file =
    [TextMessage ("Error processing " +:+ filename file +:+ ": " +:+ exn_str e);
     JsonMessage (JObject {[ filename file :=
                    JObject {[ "error" := JString (exn_str e) ]} ]})] ∧
  messages env tool_parameters =
    batch_messages fitz_module pil before ++
    file_messages fitz_module pil file ++
    batch_messages fitz_module pil after.
Proof.
  intros Hf Hl He.
  destruct (invoke_loaded _ _ _ _ _ Hf Hl) as [Hr Hm].
  split; [done|]. split.
  - by rewrite (file_messages_raise _ _ _ _ He).
  - by rewrite Hm, batch_messages_app, batch_messages_cons.
Qed.

Lemma file_error_isolated_instance :
  (convert ex_fitz ex_pil ex_corrupt initial).1 =
    Raise (mkExn OtherException "Failed to open stream") ∧
  messages ex_env (with_files [ex_good; ex_corrupt; ex_good2]) =
    batch_messages ex_fitz ex_pil [ex_good] ++
    file_messages ex_fitz ex_pil ex_corrupt ++
    batch_messages ex_fitz ex_pil [ex_good2] ∧
  file_messages ex_fitz ex_pil ex_corrupt =
    [TextMessage "Error processing file2.pdf: Failed to open stream";
     JsonMessage (JObject {[ "file2.pdf" :=
        JObject {[ "error" := JString "Failed to open stream" ]} ]})].
Proof.
  split; [reflexivity|].
  destruct (file_error_isolated ex_env
              (with_files [ex_good; ex_corrupt; ex_good2])
              [ex_good] ex_corrupt [ex_good2] ex_fitz ex_pil
              (mkExn OtherException "Failed to open stream"))
    as (_ & Hfile & Hall); [reflexivity..|].
  split; [exact Hall|exact Hfile].
Defined.

(** C5: a file whose document opens and has zero pages contributes exactly
    the Text message "No pages found in {filename}", hence no Blob and no
    Json message, and the files around it are processed as usual. *)
Theorem zero_pages_one_text env (tool_parameters : gmap string PyValue)
    before file after fitz_module pil doc :
  tool_parameters !! "files" = Some (PyFiles (before ++ file :: after)) →
  loads env fitz_module pil →
  fitz_open fitz_module (blob file) = Ok doc →
  page_count doc = 0 →
  file_messages fitz_module pil file =
    [TextMessage ("No pages found in " +:+ filename file)] ∧
  messages env tool_parameters =
    batch_messages fitz_module pil before ++
    [TextMessage ("No pages found in " +:+ filename file)] ++
    batch_messages fitz_module pil after.
Proof.
  intros Hf Hl Ho Hc.
  assert (file_messages fitz_module pil file =
            [TextMessage ("No pages found in " +:+ filename file)]) as Hfile.
  { unfold file_messages, process_file, convert. run_gen.
    rewrite Ho. cbn. rewrite Hc. done. }
  split; [done|].
  destruct (invoke_loaded _ _ _ _ _ Hf Hl) as [_ ->].
  by rewrite batch_messages_app, batch_messages_cons, Hfile.
Qed.

Lemma zero_pages_one_text_instance :
  fitz_open ex_fitz (blob ex_empty) = Ok ex_no_pages ∧
  page_count ex_no_pages = 0 ∧
  messages ex_env (with_files [ex_good; ex_empty; ex_good2]) =
    batch_messages ex_fitz ex_pil [ex_good] ++
    [TextMessage "No pages found in blank.pdf"] ++
    batch_messages ex_fitz ex_pil [ex_good2].
Proof.
  split; [reflexivity|]. split; [reflexivity|].
  apply (zero_pages_one_text ex_env
           (with_files [ex_good; ex_empty; ex_good2])
           [ex_good] ex_empty [ex_good2] ex_fitz ex_pil ex_no_pages);
    reflexivity.
Defined.

(** C7: when every file of the list converts, the call yields exactly one
    message per file, in the order of the files, and the message of a file
    is the Blob that carries its PNG with mime_type "image/png". *)
Theorem one_blob_per_file env (tool_parameters : gmap string PyValue)
    files fitz_module pil :
  tool_parameters !! "files" = Some (PyFiles files) →
  loads env fitz_module pil →
  Forall (λ file, ∃ png, converts fitz_module pil file png) files →
  Forall2
    (λ file m, ∃ png meta,
       m = BlobMessage png meta ∧ converts fitz_module pil file png ∧
       meta !! "mime_type" = Some "image/png")
    files (messages env tool_parameters).
Proof.
  intros Hf Hl Hall.
  destruct (invoke_loaded _ _ _ _ _ Hf Hl) as [_ ->]. clear Hf.
  induction Hall as [|file files [png Hc] _ IH].
  - constructor.
  - rewrite batch_messages_cons.
    destruct (converts_messages _ _ _ _ Hc) as (name & _ & Hr & Ho).
    rewrite (file_messages_ok _ _ _ Hr), Ho. simpl.
    constructor; [|done]. exists png, (blob_meta name).
    split; [done|]. split; [done|]. unfold blob_meta. by simplify_map_eq.
Qed.

Lemma one_blob_per_file_instance :
  Forall2
    (λ file m, ∃ png meta,
       m = BlobMessage png meta ∧ converts ex_fitz ex_pil file png ∧
       meta !! "mime_type" = Some "image/png")
    [ex_good; ex_good2] (messages ex_env (with_files [ex_good; ex_good2])).
Proof.
  apply (one_blob_per_file ex_env (with_files [ex_good; ex_good2])
           [ex_good; ex_good2] ex_fitz ex_pil); [reflexivity..|].
  repeat constructor; eexists; do 2 eexists; repeat split; try reflexivity;
    discriminate.
Defined.

(** C10: the messages of one file are a single Blob, or the single Text
    message for a document without pages, or the Text message of an error
    followed by its Json message; no file contributes both a Blob and a Json
    message; and the messages of a batch are those of its files, one file
    after the other. *)
Theorem file_messages_shape fitz_module pil file :
  ((∃ png meta, file_messages fitz_module pil file = [BlobMessage png meta]) ∨
   file_messages fitz_module pil file =
     [TextMessage ("No pages found in " +:+ filename file)] ∨
   (∃ e, file_messages fitz_module pil file =
           [error_text file e; error_json file e])) ∧
  ¬ (∃ m1 m2, m1 ∈ file_messages fitz_module pil file ∧
              m2 ∈ file_messages fitz_module pil file ∧
              is_blob m1 = true ∧ is_json m2 = true) ∧
  ∀ files, batch_messages fitz_module pil files =
           concat (file_messages fitz_module pil <$> files).
Proof.
  assert ((∃ png meta,
             file_messages fitz_module pil file = [BlobMessage png meta]) ∨
          file_messages fitz_module pil file =
            [TextMessage ("No pages found in " +:+ filename file)] ∨
          (∃ e, file_messages fitz_module pil file =
                  [error_text file e; error_json file e])) as Hshape.
  { destruct (convert_cases fitz_module pil file)
      as [(e & Hr & _)|[(Hr & _ & Ho)|(png & name & Hr & _ & _ & Ho)]].
    - right; right. exists e. by apply file_messages_raise.
    - right; left. by rewrite file_messages_ok.
    - left. exists png, (blob_meta name). by rewrite file_messages_ok. }
  split; [done|]. split; [|apply batch_messages_concat].
  intros (m1 & m2 & H1 & H2 & Hb & Hj).
  destruct Hshape as [(png & meta & E)|[E|(e & E)]]; rewrite E in H1, H2.
  - apply list_elem_of_singleton in H2 as ->. done.
  - apply list_elem_of_singleton in H1 as ->. done.
  - apply elem_of_cons in H1 as [->|H1]; [done|].
    apply list_elem_of_singleton in H1 as ->. done.
Qed.

(** The metadata of the Blob of a converted file. *)
Lemma blob_message_meta fitz_module pil file png meta :
  file_messages fitz_module pil file = [BlobMessage png meta] →
  ∃ name, png_filename (filename file) = Ok name ∧ meta = blob_meta name.
Proof.
  intros H.
  destruct (convert_cases fitz_module pil file)
    as [(e & Hr & _)|[(Hr & _ & Ho)|(png' & name & Hr & _ & Hn & Ho)]].
  - by rewrite (file_messages_raise _ _ _ _ Hr) in H.
  - by rewrite (file_messages_ok _ _ _ Hr), Ho in H.
  - rewrite (file_messages_ok _ _ _ Hr), Ho in H.
    injection H as _ <-. eauto.
Qed.

(** C6: the Blob of a converted file carries, under "filename", the name of
    the file with what follows its last '.' replaced by "png"; so
    "report.pdf" gives "report.png" and "scan.v2.pdf" gives "scan.v2.png". *)
Theorem blob_filename_replaces_extension fitz_module pil file png meta
    stem ext :
  file_messages fitz_module pil file = [BlobMessage png meta] →
  filename file = stem +:+ String "." ext →
  contains "." ext = false →
  meta !! "filename" = Some (stem +:+ ".png") ∧
  png_filename "report.pdf" = Ok "report.png" ∧
  png_filename "scan.v2.pdf" = Ok "scan.v2.png".
Proof.
  intros Hm Hname Hext. split; [|done].
  destruct (blob_message_meta _ _ _ _ _ Hm) as (name & Hn & ->).
  rewrite Hname, (png_filename_dot _ _ Hext) in Hn. injection Hn as <-.
  unfold blob_meta. by simplify_map_eq.
Qed.

Lemma blob_filename_replaces_extension_instance :
  file_messages ex_fitz ex_pil ex_good2 =
    [BlobMessage [x89; x50] (blob_meta "scan.v2.png")] ∧
  blob_meta "scan.v2.png" !! "filename" = Some "scan.v2.png".
Proof.
  split; [reflexivity|].
  apply (blob_filename_replaces_extension ex_fitz ex_pil ex_good2
           [x89; x50] (blob_meta "scan.v2.png") "scan.v2" "pdf");
    reflexivity.
Defined.

(** C9: when the name of a converted file contains no '.', its Blob carries,
    under "filename", the whole name followed by ".png". *)
Theorem blob_filename_without_dot fitz_module pil file png meta :
  file_messages fitz_module pil file = [BlobMessage png meta] →
  contains "." (filename file) = false →
  meta !! "filename" = Some (filename file +:+ ".png").
Proof.
  intros Hm Hname.
  destruct (blob_message_meta _ _ _ _ _ Hm) as (name & Hn & ->).
  rewrite (png_filename_no_dot _ Hname) in Hn. injection Hn as <-.
  unfold blob_meta. by simplify_map_eq.
Qed.

Lemma blob_filename_without_dot_instance :
  file_messages ex_fitz ex_pil ex_plain =
    [BlobMessage [x89; x50] (blob_meta "README.png")] ∧
  blob_meta "README.png" !! "filename" = Some "README.png".
Proof.
  split; [reflexivity|].
  apply (blob_filename_without_dot ex_fitz ex_pil ex_plain
           [x89; x50] (blob_meta "README.png")); reflexivity.
Defined.

(** C8: files are given, and PyMuPDF can be imported under neither of its
    names, or Pillow cannot be imported.  The call then yields exactly one
    Text message, which names what is missing, and returns; no document is
    opened, so no file is processed and no Blob or Json message is
    yielded. *)
Theorem missing_dependency_one_text env (tool_parameters : gmap string PyValue)
    files text :
  tool_parameters !! "files" = Some (PyFiles files) →
  unavailable env text →
  _invoke env tool_parameters initial =
    (Ok (), {| out := [TextMessage text]; logged := [(ERROR, text)];
               live := []; next_handle := 0%nat |}).
Proof.
  intros Hf Hu. unfold _invoke, dict_get, ToolParameters_validate.
  rewrite Hf. cbn. unfold import_modules. run_gen.
  destruct Hu as [e1 e2 H1 Hi1 H2 Hi2|fz e [H1|(e1 & H1 & Hi1 & H2)] H3 Hi3].
  - rewrite H1. cbn. rewrite Hi1, H2. cbn. by rewrite Hi2.
  - rewrite H1. cbn. rewrite H3. cbn. by rewrite Hi3.
  - rewrite H1. cbn. rewrite Hi1, H2. cbn. rewrite H3. cbn. by rewrite Hi3.
Qed.

Lemma missing_dependency_one_text_instance :
  unavailable ex_env_bare
    "Error: Required library not installed. No module named 'fitz'" ∧
  messages ex_env_bare (with_files [ex_good; ex_corrupt]) =
    [TextMessage
       "Error: Required library not installed. No module named 'fitz'"].
Proof.
  assert (unavailable ex_env_bare
            "Error: Required library not installed. No module named 'fitz'")
    as Hu.
  { exact (rendering_unavailable ex_env_bare (no_module "pymupdf")
             (no_module "fitz") eq_refl eq_refl eq_refl eq_refl). }
  split; [exact Hu|]. unfold messages.
  rewrite (missing_dependency_one_text ex_env_bare
             (with_files [ex_good; ex_corrupt]) [ex_good; ex_corrupt] _
             eq_refl Hu).
  reflexivity.
Defined.

(** C3: the pages of a document, in its order, are merged into an image as
    wide as the widest page and as high as all the pages together, onto
    which each page is pasted once, in order, at x = 0 and at the y that is
    the sum of the heights of the pages before it: the first page at the
    top. *)
Theorem merge_images_layout (images : list Image) :
  images ≠ [] →
  ∃ canvas,
    merge_images images = Ok canvas ∧
    (∀ img, img ∈ images → width img ≤ canvas_width canvas) ∧
    (∃ img, img ∈ images ∧ width img = canvas_width canvas) ∧
    canvas_height canvas = Zsum (height <$> images) ∧
    length (pasted canvas) = length images ∧
    ∀ (i : nat) img, images !! i = Some img →
      pasted canvas !! i = Some (img, (0, Zsum (height <$> take i images))).
Proof.
  destruct images as [|img0 rest]; [done|]. intros _.
  unfold merge_images. cbn.
  set (w := fold_left Z.max (width <$> rest) (width img0)).
  set (c0 := Image_new (w, py_sum (height <$> img0 :: rest))).
  exists (paste_images c0 0 (img0 :: rest)).
  destruct (paste_images_size c0 0 (img0 :: rest)) as [Hw Hh].
  pose proof (paste_images_pasted c0 0 (img0 :: rest)) as Hp.
  split; [done|]. rewrite Hw, Hh, Hp. cbn [c0 Image_new canvas_width canvas_height pasted fst snd app].
  repeat split.
  - intros img [->|Hin]%elem_of_cons.
    + apply fold_left_max_ge.
    + apply fold_left_max_upper. by apply list_elem_of_fmap_2.
  - destruct (fold_left_max_attained (width <$> rest) (width img0))
      as [E|Hin].
    + exists img0. split; [left|done].
    + apply list_elem_of_fmap in Hin as (img & E & Hin).
      exists img. split; [by right|done].
  - apply py_sum_Zsum.
  - by rewrite length_imap.
  - intros i img Hi. rewrite list_lookup_imap, Hi. cbn.
    by rewrite Z.add_0_l.
Qed.

Lemma merge_images_layout_instance :
  ∃ canvas,
    merge_images [mkImage 10 20 []; mkImage 30 5 []] = Ok canvas ∧
    canvas_width canvas = 30 ∧ canvas_height canvas = 25 ∧
    pasted canvas = [(mkImage 10 20 [], (0, 0)); (mkImage 30 5 [], (0, 20))].
Proof.
  destruct (merge_images_layout [mkImage 10 20 []; mkImage 30 5 []])
    as (canvas & Hm & _); [discriminate|].
  exists canvas. split; [exact Hm|].
  injection Hm as <-. repeat split; reflexivity.
Defined.

(** * Open documents *)

Lemma filter_fresh_handle (l : list nat) h :
  Forall (λ h', (h' < h)%nat) l →
  filter (λ h', h' ≠ h) (l ++ [h]) = l.
Proof.
  induction 1 as [|x l Hx _ IH].
  - rewrite app_nil_l, filter_cons_False; [done|]. by intros [].
  - rewrite <- app_comm_cons, filter_cons_True by lia. by rewrite IH.
Qed.

(** When [convert] returns, the document it opened has been closed. *)
Lemma convert_returns_closed fitz_module pil file s :
  Forall (λ h, (h < next_handle s)%nat) (live s) →
  (convert fitz_module pil file s).1 = Ok () →
  live (convert fitz_module pil file s).2 = live s.
Proof.
  intros Hs. unfold convert. run_gen.
  destruct (fitz_open fitz_module (blob file)) as [doc|e]; cbn; [|done].
  destruct (render_pages pil doc (range (page_count doc)) [])
    as [[|img images]|e]; cbn; [by rewrite filter_fresh_handle| |done].
  destruct (merge_images (img :: images)) as [canvas|e]; cbn; [|done].
  destruct (save_PNG pil canvas) as [png|e]; cbn; [|done].
  destruct (png_filename (filename file)) as [name|e]; cbn; [|done].
  by rewrite filter_fresh_handle.
Qed.

(** When a page fails to render, the iteration ends with the document
    open: line 70 is not reached and the handler does not close it. *)
Lemma render_error_leaks fitz_module pil file doc e s :
  fitz_open fitz_module (blob file) = Ok doc →
  render_pages pil doc (range (page_count doc)) [] = Raise e →
  live (process_file fitz_module pil file s).2 = live s ++ [next_handle s].
Proof.
  intros Ho Hr. unfold process_file, convert, report. run_gen.
  rewrite Ho. cbn. by rewrite Hr.
Qed.

(** C4, at a document whose only page cannot be loaded: the document is
    opened, the error is reported, and at the end of the call the document
    is still open, whereas a document that converts is closed. *)
Theorem render_error_leaves_document_open :
  fitz_open ex_fitz (blob ex_broken) = Ok ex_bad_page ∧
  messages ex_env (with_files [ex_broken]) =
    [TextMessage "Error processing broken.pdf: cannot load page";
     JsonMessage (JObject {[ "broken.pdf" :=
        JObject {[ "error" := JString "cannot load page" ]} ]})] ∧
  live (_invoke ex_env (with_files [ex_broken]) initial).2 = [0%nat] ∧
  live (_invoke ex_env (with_files [ex_good]) initial).2 = [].
Proof. repeat split; reflexivity. Qed.

(** * The state after an iteration *)

Lemma process_file_state fitz_module pil file s :
  process_file fitz_module pil file s =
    (Ok (),
     {| out := out s ++ file_messages fitz_module pil file;
        logged := logged s ++ file_logged fitz_module pil file;
        live :=
          if opens fitz_module file then
            if render_fails fitz_module pil file
            then live s ++ [next_handle s]
            else filter (λ h', h' ≠ next_handle s) (live s ++ [next_handle s])
          else live s;
        next_handle :=
          if opens fitz_module file then S (next_handle s)
          else next_handle s |}).
Proof.
  unfold file_messages, file_logged, opens, render_fails, process_file,
    convert, report. run_gen.
  destruct (fitz_open fitz_module (blob file)) as [doc|e]; cbn.
  2: { by rewrite <- !app_assoc. }
  destruct (render_pages pil doc (range (page_count doc)) [])
    as [[|img images]|e]; cbn; [done| |by rewrite <- !app_assoc].
  destruct (merge_images (img :: images)) as [canvas|e]; cbn;
    [|by rewrite <- !app_assoc].
  destruct (save_PNG pil canvas) as [png|e]; cbn; [|by rewrite <- !app_assoc].
  destruct (png_filename (filename file)) as [name|e]; cbn;
    [done|by rewrite <- !app_assoc].
Qed.

Lemma render_fails_opens fitz_module pil file :
  render_fails fitz_module pil file = true → opens fitz_module file = true.
Proof.
  unfold render_fails, opens.
  by destruct (fitz_open fitz_module (blob file)).
Qed.

(** With sound handles, an iteration leaves open the document it opened
    exactly when a page failed to render. *)
Lemma process_file_handles fitz_module pil file s :
  handles_ok s →
  handles_ok (process_file fitz_module pil file s).2 ∧
  live (process_file fitz_module pil file s).2 =
    live s ++
    (if render_fails fitz_module pil file then [next_handle s] else []) ∧
  next_handle (process_file fitz_module pil file s).2 =
    (next_handle s + (if opens fitz_module file then 1 else 0))%nat.
Proof.
  intros Hs. rewrite process_file_state. cbn. unfold handles_ok. cbn.
  pose proof (render_fails_opens fitz_module pil file) as Hro.
  destruct (opens fitz_module file).
  - destruct (render_fails fitz_module pil file).
    + split; [|split; [done|lia]]. apply Forall_app. split.
      * eapply Forall_impl; [exact Hs|]. cbn. lia.
      * repeat constructor.
    + rewrite (filter_fresh_handle _ _ Hs), app_nil_r.
      split; [|split; [done|lia]].
      eapply Forall_impl; [exact Hs|]. cbn. lia.
  - destruct (render_fails fitz_module pil file); [by specialize (Hro eq_refl)|].
    rewrite app_nil_r. split; [|split; [done|lia]].
    eapply Forall_impl; [exact Hs|]. cbn. lia.
Qed.

Lemma process_files_state fitz_module pil files s :
  handles_ok s →
  (process_files fitz_module pil files s).1 = Ok () ∧
  handles_ok (process_files fitz_module pil files s).2 ∧
  out (process_files fitz_module pil files s).2 =
    out s ++ concat (file_messages fitz_module pil <$> files) ∧
  logged (process_files fitz_module pil files s).2 =
    logged s ++ concat (file_logged fitz_module pil <$> files) ∧
  length (live (process_files fitz_module pil files s).2) =
    (length (live s) +
     length (filter (λ f, render_fails fitz_module pil f = true) files))%nat ∧
  next_handle (process_files fitz_module pil files s).2 =
    (next_handle s +
     length (filter (λ f, opens fitz_module f = true) files))%nat.
Proof.
  revert s. induction files as [|file files IH]; intros s Hs.
  - cbn. rewrite !app_nil_r. repeat split; try done; lia.
  - cbn [process_files]. rewrite !fmap_cons. cbn [concat].
    unfold mbind, Gen_bind.
    destruct (process_file_handles fitz_module pil file s Hs)
      as (Hok & Hlive & Hnext).
    pose proof (process_file_state fitz_module pil file s) as Hst.
    destruct (process_file fitz_module pil file s) as [r s1].
    cbn in Hok, Hlive, Hnext. injection Hst as -> Hs1.
    assert (out s1 = out s ++ file_messages fitz_module pil file) as Ho
      by (by rewrite Hs1).
    assert (logged s1 = logged s ++ file_logged fitz_module pil file) as Hg
      by (by rewrite Hs1).
    clear Hs1.
    destruct (IH s1 Hok) as (-> & Hok' & -> & -> & -> & ->).
    rewrite Ho, Hg, Hlive, Hnext, length_app, <- !app_assoc, !filter_cons.
    split; [done|]. split; [done|]. split; [done|]. split; [done|].
    destruct (render_fails fitz_module pil file) eqn:Er;
      destruct (opens fitz_module file) eqn:Eo;
      repeat case_decide; try done; cbn; split; lia.
Qed.

(** When both libraries are imported the call is the loop. *)
Lemma invoke_loaded_state env (tool_parameters : gmap string PyValue)
    files fitz_module pil :
  tool_parameters !! "files" = Some (PyFiles files) →
  loads env fitz_module pil →
  _invoke env tool_parameters initial =
    process_files fitz_module pil files initial.
Proof.
  intros Hf Hl.
  unfold _invoke, dict_get, ToolParameters_validate.
  rewrite Hf. cbn. unfold try_except, mbind, Gen_bind, lift.
  rewrite (import_modules_loaded _ _ _ _ Hl). cbn.
  destruct (process_files_run fitz_module pil files initial) as [Hr _].
  revert Hr. destruct (process_files fitz_module pil files initial) as [r s'].
  cbn. by intros ->.
Qed.

Lemma handles_ok_initial : handles_ok initial.
Proof. constructor. Qed.

(** * Every way a call can end *)

Lemma import_modules_cases env :
  (∃ e, import_crash env e ∧ import_modules env initial = (Raise e, initial) ∧
        is_ImportError e = false) ∨
  (∃ e1 e2, import_pymupdf env = Raise e1 ∧ is_ImportError e1 = true ∧
            import_fitz env = Raise e2 ∧ is_ImportError e2 = true ∧
            import_modules env initial = (Raise e2, initial)) ∨
  (∃ fitz_module e, rendering_found env fitz_module ∧
        import_PIL_Image env = Raise e ∧ is_ImportError e = true ∧
        import_modules env initial =
          (Ok None, one_text_state pillow_msg [(ERROR, pillow_msg)])) ∨
  (∃ fitz_module pil, loads env fitz_module pil).
Proof.
  unfold loads, import_modules, rendering_found. run_gen.
  destruct (import_pymupdf env) as [fz|e1] eqn:E1; cbn.
  - destruct (import_PIL_Image env) as [im|e3] eqn:E3; cbn.
    + right; right; right. eauto.
    + destruct (is_ImportError e3) eqn:I3; cbn.
      * right; right; left. exists fz, e3. eauto 10.
      * left. exists e3. split; [|done].
        eapply (crash_PIL env fz); [|done..]. by left.
  - destruct (is_ImportError e1) eqn:I1; cbn.
    2: { left. exists e1. split; [|done]. by apply crash_pymupdf. }
    destruct (import_fitz env) as [fz|e2] eqn:E2; cbn.
    2: { destruct (is_ImportError e2) eqn:I2.
         - right; left. exists e1, e2. done.
         - left. exists e2. split; [|done]. by eapply crash_fitz. }
    destruct (import_PIL_Image env) as [im|e3] eqn:E3; cbn.
    + right; right; right. eauto.
    + destruct (is_ImportError e3) eqn:I3; cbn.
      * right; right; left. exists fz, e3. split; [right; eauto|done].
      * left. exists e3. split; [|done].
        eapply (crash_PIL env fz); [|done..]. right. eauto.
Qed.

Lemma missing_dependency_one_text_aux env
    (tool_parameters : gmap string PyValue) files text :
  tool_parameters !! "files" = Some (PyFiles files) →
  unavailable env text →
  _invoke env tool_parameters initial =
    (Ok (), one_text_state text [(ERROR, text)]).
Proof.
  intros Hf Hu. unfold _invoke, dict_get, ToolParameters_validate.
  rewrite Hf. cbn. unfold import_modules. run_gen.
  destruct Hu as [e1 e2 H1 Hi1 H2 Hi2|fz e [H1|(e1 & H1 & Hi1 & H2)] H3 Hi3].
  - rewrite H1. cbn. rewrite Hi1, H2. cbn. by rewrite Hi2.
  - rewrite H1. cbn. rewrite H3. cbn. by rewrite Hi3.
  - rewrite H1. cbn. rewrite Hi1, H2. cbn. rewrite H3. cbn. by rewrite Hi3.
Qed.

Lemma invoke_cases env (tool_parameters : gmap string PyValue) :
  (is_None (dict_get tool_parameters "files") = true ∧
   _invoke env tool_parameters initial =
     (Ok (), one_text_state no_files_msg [])) ∨
  (∃ e, is_None (dict_get tool_parameters "files") = false ∧
        ToolParameters_validate tool_parameters = Raise e ∧
        _invoke env tool_parameters initial = (Raise e, initial)) ∨
  (∃ files, tool_parameters !! "files" = Some (PyFiles files) ∧
     ((∃ e, import_crash env e ∧
            _invoke env tool_parameters initial = (Raise e, initial)) ∨
      (∃ text, unavailable env text ∧
            _invoke env tool_parameters initial =
              (Ok (), one_text_state text [(ERROR, text)])) ∨
      (∃ fitz_module pil, loads env fitz_module pil ∧
            _invoke env tool_parameters initial =
              process_files fitz_module pil files initial))).
Proof.
  destruct (tool_parameters !! "files") as [[|files|str]|] eqn:Hf.
  - left. unfold _invoke, dict_get. by rewrite Hf.
  - right; right. exists files. split; [done|].
    destruct (import_modules_cases env)
      as [(e & Hc & Hi & Hne)|[(e1 & e2 & H1 & I1 & H2 & I2 & Hi)|
          [(fz & e & Hr & H3 & I3 & Hi)|(fz & pil & Hl)]]].
    + left. exists e. split; [done|].
      unfold _invoke, dict_get, ToolParameters_validate. rewrite Hf. cbn.
      unfold try_except, mbind, Gen_bind, lift. rewrite Hi. cbn.
      by rewrite Hne.
    + right; left. eexists. split; [by eapply rendering_unavailable|].
      apply (missing_dependency_one_text_aux env tool_parameters files); [done|].
      by eapply rendering_unavailable.
    + right; left. exists pillow_msg.
      split; [by eapply imaging_unavailable|].
      apply (missing_dependency_one_text_aux env tool_parameters files); [done|].
      by eapply imaging_unavailable.
    + right; right. exists fz, pil. split; [done|].
      by apply invoke_loaded_state.
  - right; left. eexists. unfold _invoke, dict_get, ToolParameters_validate.
    rewrite Hf. cbn. done.
  - left. unfold _invoke, dict_get. by rewrite Hf.
Qed.

(** * Further properties of the call *)

Lemma import_crash_raises env (tool_parameters : gmap string PyValue) files e :
  tool_parameters !! "files" = Some (PyFiles files) →
  import_crash env e →
  _invoke env tool_parameters initial = (Raise e, initial).
Proof.
  intros Hf Hc. unfold _invoke, dict_get, ToolParameters_validate.
  rewrite Hf. cbn. unfold import_modules. run_gen.
  destruct Hc as [e H1 I1|e1 e H1 I1 H2 I2|fz e [H1|(e1 & H1 & I1 & H2)] H3 I3].
  - rewrite H1. cbn. rewrite I1. cbn. by rewrite I1.
  - rewrite H1. cbn. rewrite I1, H2. cbn. by rewrite I2.
  - rewrite H1. cbn. rewrite H3. cbn. rewrite I3. cbn. by rewrite I3.
  - rewrite H1. cbn. rewrite I1, H2. cbn. rewrite H3. cbn. rewrite I3. cbn.
    by rewrite I3.
Qed.

(** X1: a call raises only before the loop is entered.  It raises [e]
    exactly when [files] is there and pydantic rejects it with [e], or
    when the files are accepted and an import raises [e], which is not an
    ImportError.  A call that raises has yielded nothing, logged nothing and
    opened nothing; in particular no error of a file leaves the
    generator. *)
Theorem invoke_raises_iff env (tool_parameters : gmap string PyValue) e :
  ((_invoke env tool_parameters initial).1 = Raise e ↔
   (is_None (dict_get tool_parameters "files") = false ∧
    ToolParameters_validate tool_parameters = Raise e) ∨
   (∃ files, tool_parameters !! "files" = Some (PyFiles files) ∧
             import_crash env e)) ∧
  ((_invoke env tool_parameters initial).1 = Raise e →
   (_invoke env tool_parameters initial).2 = initial).
Proof.
  destruct (invoke_cases env tool_parameters)
    as [(Hn & Hi)|[(e' & Hn & Hv & Hi)|(files & Hf &
         [(e' & Hc & Hi)|[(text & Hu & Hi)|(fz & pil & Hl & Hi)]])]].
  - rewrite Hi. cbn. split; [|done]. split; [done|].
    intros [(Hn' & _)|(files & Hf & _)]; [congruence|].
    unfold dict_get in Hn. by rewrite Hf in Hn.
  - rewrite Hi. cbn. split; [|done]. split.
    + intros [= <-]. by left.
    + intros [(_ & Hv')|(files & Hf & _)]; [congruence|].
      unfold ToolParameters_validate in Hv. by rewrite Hf in Hv.
  - rewrite Hi. cbn. split; [|done]. split.
    + intros [= <-]. right. eauto.
    + intros [(_ & Hv')|(files' & Hf' & Hc')].
      * unfold ToolParameters_validate in Hv'. by rewrite Hf in Hv'.
      * rewrite (import_crash_raises _ _ _ _ Hf' Hc') in Hi. congruence.
  - rewrite Hi. cbn. split; [|done]. split; [done|].
    intros [(_ & Hv')|(files' & Hf' & Hc')].
    + unfold ToolParameters_validate in Hv'. by rewrite Hf in Hv'.
    + rewrite (import_crash_raises _ _ _ _ Hf' Hc') in Hi. congruence.
  - rewrite Hi.
    destruct (process_files_run fz pil files initial) as [Hr _].
    rewrite Hr. split; [|done]. split; [done|].
    intros [(_ & Hv')|(files' & Hf' & Hc')].
    + unfold ToolParameters_validate in Hv'. by rewrite Hf in Hv'.
    + rewrite (import_crash_raises _ _ _ _ Hf' Hc') in Hi.
      apply (f_equal fst) in Hi. cbn in Hi. congruence.
Qed.

(** X2: PyMuPDF is looked up as [pymupdf] first and as [fitz] only when
    that raises an ImportError; whichever is found, together with Pillow,
    runs the loop over the files, and nothing is yielded or logged for the
    name that was not found. *)
Theorem rendering_found_runs_loop env (tool_parameters : gmap string PyValue)
    files fitz_module pil :
  tool_parameters !! "files" = Some (PyFiles files) →
  rendering_found env fitz_module →
  import_PIL_Image env = Ok pil →
  _invoke env tool_parameters initial =
    process_files fitz_module pil files initial.
Proof.
  intros Hf Hr Hp. apply invoke_loaded_state; [done|].
  unfold loads, import_modules. run_gen.
  destruct Hr as [H1|(e & H1 & I1 & H2)].
  - rewrite H1. cbn. by rewrite Hp.
  - rewrite H1. cbn. rewrite I1, H2. cbn. by rewrite Hp.
Qed.

Lemma rendering_found_runs_loop_instance :
  rendering_found ex_env_old ex_fitz ∧
  messages ex_env_old (with_files [ex_good; ex_corrupt]) =
    batch_messages ex_fitz ex_pil [ex_good; ex_corrupt].
Proof.
  assert (rendering_found ex_env_old ex_fitz) as Hr.
  { right. exists (no_module "pymupdf"). repeat split; reflexivity. }
  split; [exact Hr|]. unfold messages, batch_messages.
  rewrite (rendering_found_runs_loop ex_env_old
             (with_files [ex_good; ex_corrupt]) [ex_good; ex_corrupt]
             ex_fitz ex_pil eq_refl Hr eq_refl).
  reflexivity.
Defined.

(** X3: after a call that runs the loop, as many handles have been handed
    out as there are files whose document opened, and as many documents are
    still open as there are files of which a page failed to render; when no
    page fails to render, no document is left open. *)
Theorem open_documents_count env (tool_parameters : gmap string PyValue)
    files fitz_module pil :
  tool_parameters !! "files" = Some (PyFiles files) →
  loads env fitz_module pil →
  next_handle (_invoke env tool_parameters initial).2 =
    length (filter (λ f, opens fitz_module f = true) files) ∧
  length (live (_invoke env tool_parameters initial).2) =
    length (filter (λ f, render_fails fitz_module pil f = true) files) ∧
  handles_ok (_invoke env tool_parameters initial).2 ∧
  (Forall (λ f, render_fails fitz_module pil f = false) files →
   live (_invoke env tool_parameters initial).2 = []).
Proof.
  intros Hf Hl. rewrite (invoke_loaded_state _ _ _ _ _ Hf Hl).
  destruct (process_files_state fitz_module pil files initial
              handles_ok_initial) as (_ & Hok & _ & _ & Hlive & Hnext).
  split; [done|]. split; [done|]. split; [done|].
  intros Hall. apply length_zero_iff_nil. rewrite Hlive. cbn.
  apply length_zero_iff_nil. clear - Hall.
  induction Hall as [|f fs Hfalse _ IH]; [done|].
  rewrite filter_cons_False; [done|]. congruence.
Qed.

Lemma open_documents_count_instance :
  next_handle
    (_invoke ex_env (with_files [ex_good; ex_corrupt; ex_broken; ex_empty])
       initial).2 = 3%nat ∧
  length (live
    (_invoke ex_env (with_files [ex_good; ex_corrupt; ex_broken; ex_empty])
       initial).2) = 1%nat.
Proof.
  destruct (open_documents_count ex_env
              (with_files [ex_good; ex_corrupt; ex_broken; ex_empty])
              [ex_good; ex_corrupt; ex_broken; ex_empty] ex_fitz ex_pil)
    as (Hn & Hl & _); [reflexivity..|].
  split; [exact Hn|exact Hl].
Defined.

(** X4: once every page of a file has rendered, its document is closed
    whatever happens next: the file may have no pages, the PNG encoder may
    raise, or the Blob may be yielded; the set of open documents is as
    before the iteration. *)
Theorem rendered_document_is_closed fitz_module pil file images s :
  handles_ok s →
  pages fitz_module pil file = Ok images →
  live (process_file fitz_module pil file s).2 = live s.
Proof.
  intros Hs Hp.
  destruct (process_file_handles fitz_module pil file s Hs) as (_ & -> & _).
  unfold render_fails. unfold pages in Hp.
  destruct (fitz_open fitz_module (blob file)) as [doc|e]; cbn in Hp.
  - rewrite Hp. by rewrite app_nil_r.
  - by rewrite app_nil_r.
Qed.

Lemma rendered_document_is_closed_instance :
  file_messages ex_fitz ex_pil_no_png ex_good =
    [TextMessage "Error processing report.pdf: encoder error";
     JsonMessage (JObject {[ "report.pdf" :=
        JObject {[ "error" := JString "encoder error" ]} ]})] ∧
  live (process_file ex_fitz ex_pil_no_png ex_good initial).2 = [].
Proof.
  split; [reflexivity|].
  apply (rendered_document_is_closed ex_fitz ex_pil_no_png ex_good
           [mkImage 10 20 []; mkImage 30 5 []] initial);
    [constructor|reflexivity].
Defined.

Lemma invoke_raises_iff_instance :
  import_crash ex_env_crash
    (mkExn OtherException "libmupdf.so: cannot open shared object file") ∧
  _invoke ex_env_crash (with_files [ex_good]) initial =
    (Raise (mkExn OtherException "libmupdf.so: cannot open shared object file"),
     initial).
Proof.
  assert (import_crash ex_env_crash
            (mkExn OtherException "libmupdf.so: cannot open shared object file"))
    as Hc by (by apply crash_pymupdf).
  split; [exact Hc|].
  destruct (invoke_raises_iff ex_env_crash (with_files [ex_good])
              (mkExn OtherException
                 "libmupdf.so: cannot open shared object file"))
    as [[_ Hraise] Hstate].
  assert ((_invoke ex_env_crash (with_files [ex_good]) initial).1 =
            Raise (mkExn OtherException
                     "libmupdf.so: cannot open shared object file")) as Hr.
  { apply Hraise. right. exists [ex_good]. split; [reflexivity|exact Hc]. }
  specialize (Hstate Hr).
  destruct (_invoke ex_env_crash (with_files [ex_good]) initial) as [r s].
  cbn in Hr, Hstate. by rewrite Hr, Hstate.
Defined.

(** * The log *)

Lemma file_logged_eq fitz_module pil file :
  file_logged fitz_module pil file =
    (INFO, "Processing file: " +:+ filename file) ::
    match (convert fitz_module pil file initial).1 with
    | Ok _ => []
    | Raise e =>
        [(ERROR,
          "Error processing " +:+ filename file +:+ ": " +:+ exn_str e)]
    end.
Proof.
  unfold file_logged, process_file, convert, report. run_gen.
  destruct (fitz_open fitz_module (blob file)) as [doc|e]; cbn; [|done].
  destruct (render_pages pil doc (range (page_count doc)) [])
    as [[|img images]|e]; cbn; [done| |done].
  destruct (merge_images (img :: images)) as [canvas|e]; cbn; [|done].
  destruct (save_PNG pil canvas) as [png|e]; cbn; [|done].
  by destruct (png_filename (filename file)) as [name|e]; cbn.
Qed.

Lemma filter_INFO_file_logged fitz_module pil file :
  filter (λ r, is_INFO r = true) (file_logged fitz_module pil file) =
    [(INFO, "Processing file: " +:+ filename file)].
Proof.
  rewrite file_logged_eq.
  by destruct ((convert fitz_module pil file initial).1).
Qed.

(** X5: a call that runs the loop logs, at level INFO, one record
    "Processing file: {filename}" per file, in the order of the files, and
    nothing else at that level: every file is announced, also one that
    fails. *)
Theorem every_file_announced env (tool_parameters : gmap string PyValue)
    files fitz_module pil :
  tool_parameters !! "files" = Some (PyFiles files) →
  loads env fitz_module pil →
  filter (λ r, is_INFO r = true)
         (logged (_invoke env tool_parameters initial).2) =
    (λ f, (INFO, "Processing file: " +:+ filename f)) <$> files.
Proof.
  intros Hf Hl. rewrite (invoke_loaded_state _ _ _ _ _ Hf Hl).
  destruct (process_files_state fitz_module pil files initial
              handles_ok_initial) as (_ & _ & _ & -> & _).
  cbn [logged initial app]. clear.
  induction files as [|f fs IH]; [done|].
  rewrite !fmap_cons. cbn [concat].
  by rewrite filter_app, filter_INFO_file_logged, IH.
Qed.

Lemma every_file_announced_instance :
  filter (λ r, is_INFO r = true)
         (logged (_invoke ex_env (with_files [ex_good; ex_corrupt; ex_empty])
                    initial).2) =
    [(INFO, "Processing file: report.pdf");
     (INFO, "Processing file: file2.pdf");
     (INFO, "Processing file: blank.pdf")].
Proof.
  apply (every_file_announced ex_env
           (with_files [ex_good; ex_corrupt; ex_empty])
           [ex_good; ex_corrupt; ex_empty] ex_fitz ex_pil); reflexivity.
Defined.

Lemma file_logged_error_yielded fitz_module pil file msg :
  (ERROR, msg) ∈ file_logged fitz_module pil file →
  TextMessage msg ∈ file_messages fitz_module pil file.
Proof.
  rewrite file_logged_eq. intros [[=]|Hin]%elem_of_cons.
  destruct ((convert fitz_module pil file initial).1) as [[]|e] eqn:Hr;
    [by apply elem_of_nil in Hin|].
  apply list_elem_of_singleton in Hin as [= ->].
  rewrite (file_messages_raise _ _ _ _ Hr). left.
Qed.

(** X6: whatever the parameters and the installation, every message logged
    at level ERROR has also been yielded to the host as a Text message. *)
Theorem logged_errors_are_yielded env (tool_parameters : gmap string PyValue)
    msg :
  (ERROR, msg) ∈ logged (_invoke env tool_parameters initial).2 →
  TextMessage msg ∈ out (_invoke env tool_parameters initial).2.
Proof.
  destruct (invoke_cases env tool_parameters)
    as [(Hn & ->)|[(e' & Hn & Hv & ->)|(files & Hf &
         [(e' & Hc & ->)|[(text & Hu & ->)|(fz & pil & Hl & ->)]])]]; cbn.
  - by intros ?%elem_of_nil.
  - by intros ?%elem_of_nil.
  - by intros ?%elem_of_nil.
  - intros [= ->]%list_elem_of_singleton. left.
  - destruct (process_files_state fz pil files initial handles_ok_initial)
      as (_ & _ & -> & -> & _).
    cbn [out logged initial app]. clear.
    induction files as [|f fs IH]; [by intros ?%elem_of_nil|].
    rewrite !fmap_cons. cbn [concat]. rewrite !elem_of_app.
    intros [H|H]; [left; by apply file_logged_error_yielded|right; auto].
Qed.

Lemma logged_errors_are_yielded_instance :
  (ERROR, "Error processing file2.pdf: Failed to open stream") ∈
    logged (_invoke ex_env (with_files [ex_good; ex_corrupt]) initial).2 ∧
  TextMessage "Error processing file2.pdf: Failed to open stream" ∈
    out (_invoke ex_env (with_files [ex_good; ex_corrupt]) initial).2.
Proof.
  assert ((ERROR, "Error processing file2.pdf: Failed to open stream") ∈
    logged (_invoke ex_env (with_files [ex_good; ex_corrupt]) initial).2)
    as Hin.
  { vm_compute. right. right. left. }
  split; [exact Hin|].
  exact (logged_errors_are_yielded ex_env
           (with_files [ex_good; ex_corrupt]) _ Hin).
Defined.

(** * The shape of the stream *)

Lemma file_messages_cases fitz_module pil file :
  (∃ png name, converts fitz_module pil file png ∧
     png_filename (filename file) = Ok name ∧
     (convert fitz_module pil file initial).1 = Ok () ∧
     file_messages fitz_module pil file = [BlobMessage png (blob_meta name)]) ∨
  (pages fitz_module pil file = Ok [] ∧
   (convert fitz_module pil file initial).1 = Ok () ∧
   file_messages fitz_module pil file =
     [TextMessage ("No pages found in " +:+ filename file)]) ∨
  (∃ e, (convert fitz_module pil file initial).1 = Raise e ∧
        file_messages fitz_module pil file =
          [error_text file e; error_json file e]).
Proof.
  destruct (convert_cases fitz_module pil file)
    as [(e & Hr & _)|[(Hr & Hp & Ho)|(png & name & Hr & Hc & Hn & Ho)]].
  - right; right. exists e. split; [done|]. by apply file_messages_raise.
  - right; left. by rewrite file_messages_ok.
  - left. exists png, name. by rewrite file_messages_ok.
Qed.

Lemma json_follows_text_concat fitz_module pil files (i : nat) j :
  concat (file_messages fitz_module pil <$> files) !! i =
    Some (JsonMessage j) →
  ∃ (n : nat) file e,
    i = S n ∧ file ∈ files ∧
    concat (file_messages fitz_module pil <$> files) !! n =
      Some (error_text file e) ∧
    JsonMessage j = error_json file e.
Proof.
  revert i. induction files as [|f fs IH]; intros i; [done|].
  rewrite fmap_cons. cbn [concat].
  assert (∀ i', concat (file_messages fitz_module pil <$> fs) !! i' =
                  Some (JsonMessage j) →
          ∃ (n : nat) file e, i' = S n ∧ file ∈ f :: fs ∧
            concat (file_messages fitz_module pil <$> fs) !! n =
              Some (error_text file e) ∧
            JsonMessage j = error_json file e) as IH'.
  { intros i' Hi'. destruct (IH i' Hi') as (n & file & e & -> & Hin & ? & ?).
    exists n, file, e. repeat split; try done. by right. }
  destruct (file_messages_cases fitz_module pil f)
    as [(png & name & _ & _ & _ & ->)|[(_ & _ & ->)|(e & _ & ->)]].
  - destruct i as [|i]; [done|]. cbn. intros Hi.
    destruct (IH' i Hi) as (n & file & e & -> & Hin & ? & ?).
    exists (S n), file, e. done.
  - destruct i as [|i]; [done|]. cbn. intros Hi.
    destruct (IH' i Hi) as (n & file & e & -> & Hin & ? & ?).
    exists (S n), file, e. done.
  - destruct i as [|[|i]]; [done| |]; cbn.
    + intros [= <-]. exists 0%nat, f, e. repeat split; try done. left.
    + intros Hi. destruct (IH' i Hi) as (n & file & e' & -> & Hin & ? & ?).
      exists (S (S n)), file, e'. done.
Qed.

(** X7: in the stream of any call, a Json message is never first and never
    alone: it comes right after the Text message "Error processing ..." of
    the same file and the same error, and it maps the name of that file to
    that error. *)
Theorem json_follows_its_text env (tool_parameters : gmap string PyValue)
    (i : nat) j :
  messages env tool_parameters !! i = Some (JsonMessage j) →
  ∃ (n : nat) file e,
    i = S n ∧
    messages env tool_parameters !! n = Some (error_text file e) ∧
    JsonMessage j = error_json file e ∧
    ∃ files, tool_parameters !! "files" = Some (PyFiles files) ∧ file ∈ files.
Proof.
  unfold messages.
  destruct (invoke_cases env tool_parameters)
    as [(Hn & ->)|[(e' & Hn & Hv & ->)|(files & Hf &
         [(e' & Hc & ->)|[(text & Hu & ->)|(fz & pil & Hl & ->)]])]]; cbn.
  - by destruct i as [|[|i]].
  - done.
  - done.
  - by destruct i as [|[|i]].
  - destruct (process_files_run fz pil files initial) as [_ ->]. cbn.
    intros Hi.
    destruct (json_follows_text_concat fz pil files i j Hi)
      as (n & file & e & -> & Hin & ? & ?).
    exists n, file, e. repeat split; try done. eauto.
Qed.

Lemma json_follows_its_text_instance :
  ∃ (n : nat) file e,
    2%nat = S n ∧
    messages ex_env (with_files [ex_good; ex_corrupt]) !! n =
      Some (error_text file e) ∧
    JsonMessage (JObject {[ "file2.pdf" :=
        JObject {[ "error" := JString "Failed to open stream" ]} ]}) =
      error_json file e ∧
    ∃ files, with_files [ex_good; ex_corrupt] !! "files" =
               Some (PyFiles files) ∧ file ∈ files.
Proof.
  exact (json_follows_its_text ex_env (with_files [ex_good; ex_corrupt])
           2%nat _ eq_refl).
Defined.

Lemma file_messages_length fitz_module pil file :
  length (file_messages fitz_module pil file) =
    if fails fitz_module pil file then 2%nat else 1%nat.
Proof.
  unfold fails.
  destruct (file_messages_cases fitz_module pil file)
    as [(png & name & _ & _ & -> & ->)|[(_ & -> & ->)|(e & -> & ->)]]; done.
Qed.

(** X8: a call that runs the loop yields one message per file and one more
    for each file that fails: at least as many messages as files, at most
    twice as many, and none for an empty list. *)
Theorem message_count env (tool_parameters : gmap string PyValue)
    files fitz_module pil :
  tool_parameters !! "files" = Some (PyFiles files) →
  loads env fitz_module pil →
  length (messages env tool_parameters) =
    (length files +
     length (filter (λ f, fails fitz_module pil f = true) files))%nat ∧
  (length files ≤ length (messages env tool_parameters) ≤ 2 * length files)%nat.
Proof.
  intros Hf Hl. unfold messages.
  rewrite (invoke_loaded_state _ _ _ _ _ Hf Hl).
  destruct (process_files_run fitz_module pil files initial) as [_ ->].
  cbn [out initial app]. clear.
  assert (length (concat (file_messages fitz_module pil <$> files)) =
          (length files +
           length (filter (λ f, fails fitz_module pil f = true) files))%nat)
    as ->.
  { induction files as [|f fs IH]; [done|].
    rewrite fmap_cons. cbn [concat]. rewrite length_app, IH, filter_cons.
    rewrite file_messages_length.
    destruct (fails fitz_module pil f); case_decide; try done; cbn; lia. }
  split; [done|].
  pose proof (length_filter (λ f, fails fitz_module pil f = true) files).
  lia.
Qed.

Lemma message_count_instance :
  length (messages ex_env (with_files [ex_good; ex_corrupt; ex_empty])) =
    4%nat.
Proof.
  destruct (message_count ex_env (with_files [ex_good; ex_corrupt; ex_empty])
              [ex_good; ex_corrupt; ex_empty] ex_fitz ex_pil)
    as [Hlen _]; [reflexivity..|].
  exact Hlen.
Defined.

(** X9: the stream of a list of files is the stream of its first part
    followed by the stream of the rest: what a file contributes depends
    neither on the files before it nor on those after it. *)
Theorem batches_compose env (tp tp1 tp2 : gmap string PyValue)
    files1 files2 fitz_module pil :
  loads env fitz_module pil →
  tp !! "files" = Some (PyFiles (files1 ++ files2)) →
  tp1 !! "files" = Some (PyFiles files1) →
  tp2 !! "files" = Some (PyFiles files2) →
  messages env tp = messages env tp1 ++ messages env tp2.
Proof.
  intros Hl H H1 H2.
  destruct (invoke_loaded _ _ _ _ _ H Hl) as [_ ->].
  destruct (invoke_loaded _ _ _ _ _ H1 Hl) as [_ ->].
  destruct (invoke_loaded _ _ _ _ _ H2 Hl) as [_ ->].
  apply batch_messages_app.
Qed.

Lemma batches_compose_instance :
  messages ex_env (with_files [ex_good; ex_corrupt; ex_empty]) =
    messages ex_env (with_files [ex_good]) ++
    messages ex_env (with_files [ex_corrupt; ex_empty]).
Proof.
  apply (batches_compose ex_env _ _ _ [ex_good] [ex_corrupt; ex_empty]
           ex_fitz ex_pil); reflexivity.
Defined.

(** * What a file contributes, and why *)

Lemma merge_images_nonempty img images :
  ∃ canvas, merge_images (img :: images) = Ok canvas.
Proof. unfold merge_images. cbn. eauto. Qed.

Lemma convert_raises_cases fitz_module pil file e :
  (convert fitz_module pil file initial).1 = Raise e ↔
  convert_error fitz_module pil file e.
Proof.
  unfold convert, convert_error, pages. run_gen.
  destruct (fitz_open fitz_module (blob file)) as [doc|e0]; cbn.
  2: { split; [intros [= ->]; by left|].
       by intros [[= ->]|(? & ? & ? & _)]. }
  destruct (render_pages pil doc (range (page_count doc)) [])
    as [[|img images]|e0]; cbn.
  - split; [done|]. by intros [?|(? & ? & [= <-] & ? & _)].
  - destruct (merge_images_nonempty img images) as [canvas Hm].
    rewrite Hm. cbn.
    destruct (png_filename_total (filename file)) as [name Hn].
    destruct (save_PNG pil canvas) as [png|e0] eqn:Hs; cbn.
    + rewrite Hn. cbn. split; [done|].
      intros [?|(imgs & c & [= <-] & _ & Hm' & Hs')]; [done|].
      rewrite Hm in Hm'. injection Hm' as <-. congruence.
    + split.
      * intros [= ->]. right. exists (img :: images), canvas. done.
      * intros [?|(imgs & c & [= <-] & _ & Hm' & Hs')]; [done|].
        rewrite Hm in Hm'. injection Hm' as <-. congruence.
  - split; [intros [= ->]; by left|].
    by intros [[= ->]|(? & ? & ? & _)].
Qed.

Lemma convert_error_raises fitz_module pil file e :
  convert_error fitz_module pil file e →
  (convert fitz_module pil file initial).1 = Raise e.
Proof.
  intros [Hp|(images & canvas & Hp & Hne & Hm & Hs)].
  - by apply pages_raise_convert.
  - revert Hp. unfold convert, pages. run_gen.
    destruct (fitz_open fitz_module (blob file)) as [doc|e0]; cbn; [|done].
    intros ->. cbn. destruct images as [|img images]; [done|].
    rewrite Hm. cbn. by rewrite Hs.
Qed.

(** X10: when the document of a file does not open, or one of its pages
    does not render, or its pages are merged and the PNG encoder raises, the
    [try] body raises that error and the file contributes exactly the Text
    message and the Json message of that error. *)
Theorem library_error_reported fitz_module pil file e :
  convert_error fitz_module pil file e →
  (convert fitz_module pil file initial).1 = Raise e ∧
  file_messages fitz_module pil file =
    [TextMessage ("Error processing " +:+ filename file +:+ ": " +:+ exn_str e);
     JsonMessage (JObject {[ filename file :=
                    JObject {[ "error" := JString (exn_str e) ]} ]})].
Proof.
  intros He%convert_error_raises. split; [done|].
  by rewrite (file_messages_raise _ _ _ _ He).
Qed.

Lemma library_error_reported_instance :
  convert_error ex_fitz ex_pil_no_png ex_good
    (mkExn OtherException "encoder error") ∧
  file_messages ex_fitz ex_pil_no_png ex_good =
    [TextMessage "Error processing report.pdf: encoder error";
     JsonMessage (JObject {[ "report.pdf" :=
        JObject {[ "error" := JString "encoder error" ]} ]})].
Proof.
  assert (convert_error ex_fitz ex_pil_no_png ex_good
            (mkExn OtherException "encoder error")) as He.
  { right. eexists. eexists.
    split; [reflexivity|]. split; [discriminate|].
    split; reflexivity. }
  split; [exact He|].
  destruct (library_error_reported ex_fitz ex_pil_no_png ex_good _ He)
    as [_ Hm].
  exact Hm.
Defined.

(** X11: a file contributes a single Blob exactly when it converts: the
    Blob carries the PNG of the merged pages, and its metadata has the two
    keys "mime_type" and "filename" and no other. *)
Theorem blob_iff_converts fitz_module pil file png meta :
  file_messages fitz_module pil file = [BlobMessage png meta] ↔
  converts fitz_module pil file png ∧
  ∃ name, png_filename (filename file) = Ok name ∧
          meta = {[ "mime_type" := "image/png"; "filename" := name ]}.
Proof.
  split.
  - intros H.
    destruct (file_messages_cases fitz_module pil file)
      as [(png' & name & Hc & Hn & _ & E)|[(_ & _ & E)|(e & _ & E)]];
      rewrite E in H; [|done..].
    injection H as <- <-. split; [done|]. by exists name.
  - intros (Hc & name & Hn & ->).
    destruct (converts_messages _ _ _ _ Hc) as (name' & Hn' & Hr & Ho).
    rewrite (file_messages_ok _ _ _ Hr), Ho.
    by assert (name' = name) as -> by congruence.
Qed.

Lemma render_pages_length pil doc page_nums acc images :
  render_pages pil doc page_nums acc = Ok images →
  length images = (length acc + length page_nums)%nat.
Proof.
  revert acc. induction page_nums as [|n rest IH]; intros acc; cbn.
  - intros [= <-]. lia.
  - destruct (load_page doc n) as [page|?]; cbn; [|done].
    destruct (get_pixmap page) as [pix|?]; cbn; [|done].
    destruct (Image_frombytes pil _ _) as [img|?]; cbn; [|done].
    intros H%IH. rewrite length_app in H. cbn in H. lia.
Qed.

Lemma pages_empty_iff fitz_module pil file :
  pages fitz_module pil file = Ok [] ↔
  ∃ doc, fitz_open fitz_module (blob file) = Ok doc ∧ page_count doc ≤ 0.
Proof.
  unfold pages.
  destruct (fitz_open fitz_module (blob file)) as [doc|e]; cbn.
  2: { split; [done|]. by intros (? & ? & _). }
  split.
  - intros H%render_pages_length. exists doc. split; [done|].
    unfold range in H. rewrite length_seqZ in H. cbn in H. lia.
  - intros (doc' & [= <-] & Hle). unfold range. by rewrite seqZ_nil.
Qed.

(** X12: a file contributes the single Text message "No pages found in
    {filename}" exactly when its document opens and reports a page count of
    zero or less. *)
Theorem no_pages_iff fitz_module pil file :
  file_messages fitz_module pil file =
    [TextMessage ("No pages found in " +:+ filename file)] ↔
  ∃ doc, fitz_open fitz_module (blob file) = Ok doc ∧ page_count doc ≤ 0.
Proof.
  rewrite <- pages_empty_iff. split.
  - intros H.
    destruct (file_messages_cases fitz_module pil file)
      as [(png' & name & Hc & Hn & _ & E)|[(Hp & _ & E)|(e & _ & E)]];
      rewrite E in H; done.
  - intros Hp.
    destruct (file_messages_cases fitz_module pil file)
      as [(png' & name & Hc & _)|[(_ & _ & E)|(e & He & _)]]; [|done|].
    + destruct Hc as (images & canvas & Hp' & Hne & _). congruence.
    + apply convert_raises_cases in He
        as [He|(images & canvas & Hp' & Hne & _)]; congruence.
Qed.

(** * The pages *)

Lemma render_pages_step pil doc n rest acc :
  render_pages pil doc (n :: rest) acc =
    (img ← render_page pil doc n; render_pages pil doc rest (acc ++ [img])).
Proof.
  cbn. unfold render_page.
  destruct (load_page doc n) as [page|?]; cbn; [|done].
  by destruct (get_pixmap page) as [pix|?]; cbn.
Qed.

Lemma render_pages_acc pil doc page_nums acc images :
  render_pages pil doc page_nums acc = Ok images ↔
  ∃ new, images = acc ++ new ∧
         Forall2 (λ n img, render_page pil doc n = Ok img) page_nums new.
Proof.
  revert acc. induction page_nums as [|n rest IH]; intros acc.
  - cbn. split.
    + intros [= <-]. exists []. by rewrite app_nil_r.
    + intros (new & -> & ->%Forall2_nil_inv_l). by rewrite app_nil_r.
  - rewrite render_pages_step.
    destruct (render_page pil doc n) as [img|e] eqn:Hn; cbn.
    + rewrite IH. split.
      * intros (new & -> & Hall). exists (img :: new).
        rewrite <- app_assoc. split; [done|]. by constructor.
      * intros (new & -> & Hall).
        apply Forall2_cons_inv_l in Hall as (img' & new' & Hn' & Hall & ->).
        assert (img' = img) as -> by congruence.
        exists new'. by rewrite <- app_assoc.
    + split; [done|]. intros (new & _ & Hall).
      apply Forall2_cons_inv_l in Hall as (img' & new' & Hn' & _).
      congruence.
Qed.

(** X13: the page loop succeeds exactly when every page from 0 up to the
    page count loads, renders and is accepted by Pillow; the list it builds
    then holds one image per page, in the order of the pages. *)
Theorem rendered_pages_in_order pil doc images :
  (render_pages pil doc (range (page_count doc)) [] = Ok images ↔
   Forall2 (λ n img, render_page pil doc n = Ok img)
           (range (page_count doc)) images) ∧
  (render_pages pil doc (range (page_count doc)) [] = Ok images →
   length images = Z.to_nat (page_count doc) ∧
   ∀ i : nat, (i < length images)%nat →
     ∃ img, images !! i = Some img ∧
            render_page pil doc (Z.of_nat i) = Ok img).
Proof.
  assert (render_pages pil doc (range (page_count doc)) [] = Ok images ↔
          Forall2 (λ n img, render_page pil doc n = Ok img)
                  (range (page_count doc)) images) as Hiff.
  { rewrite render_pages_acc. cbn. split.
    - by intros (new & -> & H).
    - intros H. by exists images. }
  split; [done|]. intros H%Hiff.
  pose proof (Forall2_length _ _ _ H) as Hlen.
  unfold range in Hlen. rewrite length_seqZ in Hlen.
  split; [done|]. intros i Hi.
  destruct (lookup_lt_is_Some_2 images i Hi) as [img Himg].
  exists img. split; [done|].
  assert (range (page_count doc) !! i = Some (Z.of_nat i)) as Hr.
  { unfold range. rewrite lookup_seqZ. lia. }
  by apply (Forall2_lookup_lr _ _ _ _ _ _ H Hr Himg).
Qed.

Lemma render_pages_first_failure pil doc done n rest acc e :
  Forall (λ m, ∃ img, render_page pil doc m = Ok img) done →
  render_page pil doc n = Raise e →
  render_pages pil doc (done ++ n :: rest) acc = Raise e.
Proof.
  intros Hdone Hn. revert acc.
  induction Hdone as [|m done [img Hm] _ IH]; intros acc.
  - cbn [app]. rewrite render_pages_step, Hn. done.
  - rewrite <- app_comm_cons, render_pages_step, Hm. cbn. apply IH.
Qed.

(** X14: when page [k] is the first page of a document that does not
    render, the error of page [k] is the one reported for the file, whatever
    the pages after it would do. *)
Theorem first_failing_page_reported fitz_module pil file doc k e :
  fitz_open fitz_module (blob file) = Ok doc →
  0 ≤ k < page_count doc →
  (∀ i, 0 ≤ i < k → ∃ img, render_page pil doc i = Ok img) →
  render_page pil doc k = Raise e →
  file_messages fitz_module pil file = [error_text file e; error_json file e].
Proof.
  intros Ho Hk Hbefore Hfail.
  apply file_messages_raise, pages_raise_convert.
  unfold pages. rewrite Ho. cbn. unfold range.
  replace (page_count doc) with (k + (page_count doc - k)) by lia.
  rewrite seqZ_app by lia. rewrite Z.add_0_l.
  rewrite (seqZ_cons k) by lia.
  apply render_pages_first_failure; [|done].
  apply Forall_forall. intros i Hi%elem_of_seqZ. apply Hbefore. lia.
Qed.

Lemma first_failing_page_reported_instance :
  file_messages ex_fitz_partial ex_pil ex_good =
    [TextMessage "Error processing report.pdf: bad xref";
     JsonMessage (JObject {[ "report.pdf" :=
        JObject {[ "error" := JString "bad xref" ]} ]})].
Proof.
  apply (first_failing_page_reported ex_fitz_partial ex_pil ex_good
           ex_second_page_bad 1 (mkExn OtherException "bad xref"));
    [reflexivity|simpl; lia| |reflexivity].
  intros i Hi. assert (i = 0) as -> by lia. eexists. reflexivity.
Defined.

(** * The name of the image *)

Lemma rsplit_once_none sep s :
  rsplit_once sep s = None → contains sep s = false.
Proof.
  induction s as [|c s IH]; cbn; [done|].
  destruct (rsplit_once sep s) as [[??]|]; [done|].
  destruct (Ascii.eqb c sep); [done|]. cbn. auto.
Qed.

Lemma string_app_empty_r (s : string) : s +:+ "" = s.
Proof.
  induction s as [|c s IH]; [done|].
  change (String c s +:+ "") with (String c (s +:+ "")). by rewrite IH.
Qed.

(** X15: for every name the output name is defined: it is the name up to
    its last '.', that '.' excluded, followed by ".png"; a name without '.'
    is kept whole.  So the output name always ends in ".png", and only what
    follows the last '.' of the name is lost. *)
Theorem png_filename_spec name :
  ∃ stem rest,
    name = stem +:+ rest ∧
    png_filename name = Ok (stem +:+ ".png") ∧
    ((rest = "" ∧ contains "." name = false) ∨
     (∃ ext, rest = String "." ext ∧ contains "." ext = false)).
Proof.
  unfold png_filename, rsplit1.
  destruct (rsplit_once "." name) as [[pre post]|] eqn:E; cbn.
  - apply rsplit_once_some in E as [-> Hpost].
    exists pre, (String "." post). split; [done|]. split; [done|].
    right. by exists post.
  - exists name, "". split.
    + by rewrite string_app_empty_r.
    + split; [done|]. left. split; [done|]. by apply rsplit_once_none.
Qed.

(** * The merged image *)

Lemma Zsum_app xs ys : Zsum (xs ++ ys) = Zsum xs + Zsum ys.
Proof.
  unfold Zsum. induction xs as [|x xs IH]; cbn; [done|]. rewrite IH. lia.
Qed.

Lemma Zsum_nonneg xs : Forall (λ x, 0 ≤ x) xs → 0 ≤ Zsum xs.
Proof.
  unfold Zsum. induction 1 as [|x xs Hx _ IH]; cbn; lia.
Qed.

(** X16: when no page has a negative height, every page lies inside the
    merged image: it is pasted at x = 0, at a y that is not negative, it
    ends at or above the bottom of the image, and it is no wider than the
    image; and each page starts where the page before it ends, so no two
    pages overlap and no gap is left between them. *)
Theorem pages_tile_the_canvas (images : list Image) canvas :
  Forall (λ img, 0 ≤ height img) images →
  merge_images images = Ok canvas →
  (∀ (i : nat) img x y, pasted canvas !! i = Some (img, (x, y)) →
     images !! i = Some img ∧ x = 0 ∧ 0 ≤ y ∧
     y + height img ≤ canvas_height canvas ∧
     width img ≤ canvas_width canvas) ∧
  (∀ (i : nat) img y img' y',
     pasted canvas !! i = Some (img, (0, y)) →
     pasted canvas !! S i = Some (img', (0, y')) →
     y' = y + height img) ∧
  (∀ img y, last (pasted canvas) = Some (img, (0, y)) →
     y + height img = canvas_height canvas).
Proof.
  intros Hnn. unfold merge_images.
  destruct images as [|img0 rest] eqn:Himages; [done|]. rewrite <- Himages.
  assert (py_max (width <$> images) =
          Ok (fold_left Z.max (width <$> rest) (width img0))) as ->
    by (by rewrite Himages).
  rewrite <- Himages in Hnn. cbn. intros [= <-].
  set (w := fold_left Z.max (width <$> rest) (width img0)).
  set (c0 := Image_new (w, py_sum (height <$> images))).
  destruct (paste_images_size c0 0 images) as [Hw Hh].
  pose proof (paste_images_pasted c0 0 images) as Hp.
  rewrite Hw, Hh, Hp. cbn [c0 Image_new canvas_width canvas_height pasted
                            fst snd app].
  rewrite py_sum_Zsum.
  assert (∀ (i : nat) img,
            images !! i = Some img →
            Zsum (height <$> take (S i) images) =
              Zsum (height <$> take i images) + height img) as Hstep.
  { intros i img Hi. rewrite (take_S_r _ _ _ Hi), fmap_app, Zsum_app.
    unfold Zsum. cbn. lia. }
  assert (∀ i : nat, 0 ≤ Zsum (height <$> take i images) ∧
            Zsum (height <$> take i images) ≤ Zsum (height <$> images))
    as Hbound.
  { intros i. rewrite <- (take_drop i images) at 3.
    rewrite fmap_app, Zsum_app.
    assert (0 ≤ Zsum (height <$> take i images)) as H1.
    { apply Zsum_nonneg, Forall_fmap.
      eapply Forall_take in Hnn. exact Hnn. }
    assert (0 ≤ Zsum (height <$> drop i images)) as H2.
    { apply Zsum_nonneg, Forall_fmap.
      eapply Forall_drop in Hnn. exact Hnn. }
    lia. }
  split; [|split].
  - intros i img x y. rewrite list_lookup_imap.
    destruct (images !! i) as [img1|] eqn:Hi; [|done]. cbn.
    intros [= <- <- <-]. split; [done|]. split; [done|].
    rewrite Z.add_0_l. split; [apply Hbound|].
    split.
    + rewrite <- (Hstep i img1 Hi). apply Hbound.
    + assert (img1 ∈ images) as Hin by (by eapply list_elem_of_lookup_2).
      rewrite Himages in Hin. apply elem_of_cons in Hin as [->|Hin].
      * apply fold_left_max_ge.
      * apply fold_left_max_upper. by apply list_elem_of_fmap_2.
  - intros i img y img' y'. rewrite !list_lookup_imap.
    destruct (images !! i) as [img1|] eqn:Hi; [|done].
    destruct (images !! S i) as [img2|] eqn:Hi'; [|done]. cbn.
    intros [= <- <-] [= <- <-]. rewrite !Z.add_0_l. by apply Hstep.
  - intros img y. rewrite last_lookup, length_imap, list_lookup_imap.
    destruct (images !! pred (length images)) as [img1|] eqn:Hi; [|done].
    cbn. intros [= <- <-]. rewrite Z.add_0_l, <- (Hstep _ _ Hi).
    rewrite take_ge; [done|]. apply lookup_lt_Some in Hi. lia.
Qed.

Lemma pages_tile_the_canvas_instance :
  ∃ canvas,
    merge_images [mkImage 10 20 []; mkImage 30 5 []; mkImage 7 8 []] =
      Ok canvas ∧
    last (pasted canvas) = Some (mkImage 7 8 [], (0, 25)) ∧
    25 + height (mkImage 7 8 []) = canvas_height canvas.
Proof.
  eexists. split; [reflexivity|]. split; [reflexivity|].
  destruct (pages_tile_the_canvas
              [mkImage 10 20 []; mkImage 30 5 []; mkImage 7 8 []] _
              ltac:(repeat constructor; cbn; lia) eq_refl)
    as (_ & _ & Hlast).
  exact (Hlast (mkImage 7 8 []) 25 eq_refl).
Defined.

(** * Mixed batches *)

Lemma converted_converts fitz_module pil file :
  converted fitz_module pil file = true ↔
  ∃ png, converts fitz_module pil file png.
Proof.
  unfold converted, converts. split.
  - destruct (pages fitz_module pil file) as [[|img images]|e]; [done| |done].
    destruct (merge_images (img :: images)) as [canvas|e] eqn:Hm; [|done].
    destruct (save_PNG pil canvas) as [png|e] eqn:Hs; [|done].
    intros _. exists png, (img :: images), canvas. done.
  - intros (png & images & canvas & -> & Hne & Hm & Hs).
    destruct images as [|img images]; [done|]. by rewrite Hm, Hs.
Qed.

Lemma filter_blob_file_messages fitz_module pil file :
  filter (λ m, is_blob m = true) (file_messages fitz_module pil file) =
    if converted fitz_module pil file
    then file_messages fitz_module pil file else [].
Proof.
  destruct (file_messages_cases fitz_module pil file)
    as [(png & name & Hc & _ & _ & E)|[(Hp & _ & E)|(e & He & E)]].
  - assert (converted fitz_module pil file = true) as ->
      by (apply converted_converts; eauto).
    by rewrite E.
  - rewrite E. unfold converted. by rewrite Hp.
  - rewrite E. destruct (converted fitz_module pil file) eqn:Hc; [|done].
    apply converted_converts in Hc as [png Hc].
    destruct (converts_messages _ _ _ _ Hc) as (_ & _ & Hr & _). congruence.
Qed.

(** X17: in the stream of any list of files, good and bad ones mixed, the
    Blob messages are those of the files that convert: one per such file, in
    the order of the files, each with the PNG of its file, the mime type
    "image/png" and the name derived from the name of its file. *)
Theorem blobs_of_converted_files env (tool_parameters : gmap string PyValue)
    files fitz_module pil :
  tool_parameters !! "files" = Some (PyFiles files) →
  loads env fitz_module pil →
  Forall2
    (λ file m, ∃ png name,
       m = BlobMessage png
             {[ "mime_type" := "image/png"; "filename" := name ]} ∧
       converts fitz_module pil file png ∧
       png_filename (filename file) = Ok name)
    (filter (λ f, converted fitz_module pil f = true) files)
    (filter (λ m, is_blob m = true) (messages env tool_parameters)).
Proof.
  intros Hf Hl. destruct (invoke_loaded _ _ _ _ _ Hf Hl) as [_ ->].
  rewrite batch_messages_concat. clear.
  induction files as [|f fs IH]; [constructor|].
  rewrite fmap_cons. cbn [concat].
  rewrite filter_app, filter_cons, filter_blob_file_messages.
  destruct (converted fitz_module pil f) eqn:Hc.
  - rewrite decide_True by done.
    apply converted_converts in Hc as [png Hc].
    destruct (converts_messages _ _ _ _ Hc) as (name & Hn & Hr & Ho).
    rewrite (file_messages_ok _ _ _ Hr), Ho. cbn [app].
    constructor; [|done]. by exists png, name.
  - by rewrite decide_False.
Qed.

Lemma blobs_of_converted_files_instance :
  Forall2
    (λ file m, ∃ png name,
       m = BlobMessage png
             {[ "mime_type" := "image/png"; "filename" := name ]} ∧
       converts ex_fitz ex_pil file png ∧
       png_filename (filename file) = Ok name)
    [ex_good; ex_plain]
    (filter (λ m, is_blob m = true)
       (messages ex_env
          (with_files [ex_good; ex_corrupt; ex_empty; ex_plain; ex_broken]))).
Proof.
  apply (blobs_of_converted_files ex_env
           (with_files [ex_good; ex_corrupt; ex_empty; ex_plain; ex_broken])
           [ex_good; ex_corrupt; ex_empty; ex_plain; ex_broken]
           ex_fitz ex_pil); reflexivity.
Defined.

(** * The empty list *)

Lemma unavailable_text_not_no_files env text :
  unavailable env text → text ≠ no_files_msg.
Proof. by intros [e1 e2 _ _ _ _|fz e _ _ _]. Qed.

(** An empty list of files never gets the message that no files were
    provided: the stream is empty, or it is the one Text message about a
    missing library. *)
Lemma empty_files_messages env (tool_parameters : gmap string PyValue) :
  tool_parameters !! "files" = Some (PyFiles []) →
  (messages env tool_parameters = [] ∨
   ∃ text, unavailable env text ∧
           messages env tool_parameters = [TextMessage text]) ∧
  TextMessage no_files_msg ∉ messages env tool_parameters.
Proof.
  intros Hf.
  assert (messages env tool_parameters = [] ∨
          ∃ text, unavailable env text ∧
                  messages env tool_parameters = [TextMessage text]) as Hm.
  { unfold messages.
    destruct (invoke_cases env tool_parameters)
      as [(Hn & _)|[(e' & _ & Hv & _)|(files & Hf' &
           [(e' & _ & ->)|[(text & Hu & ->)|(fz & pil & _ & ->)]])]].
    - unfold dict_get in Hn. by rewrite Hf in Hn.
    - unfold ToolParameters_validate in Hv. by rewrite Hf in Hv.
    - by left.
    - right. by exists text.
    - left. rewrite Hf in Hf'. by injection Hf' as <-. }
  split; [done|].
  destruct Hm as [->|(text & Hu & ->)]; [by intros ?%elem_of_nil|].
  intros [= <-]%list_elem_of_singleton.
  by apply (unavailable_text_not_no_files env no_files_msg).
Qed.

(** C1, at the empty list: with both libraries installed the call yields no
    message at all, and with neither installed it yields the message about
    the missing library; in neither case does it yield the Text message
    that no files were provided, which the same call yields when [files] is
    absent. *)
Theorem empty_files_not_reported :
  messages ex_env (with_files []) = [] ∧
  messages ex_env_bare (with_files []) =
    [TextMessage
       "Error: Required library not installed. No module named 'fitz'"] ∧
  messages ex_env ∅ = [TextMessage no_files_msg].
Proof. repeat split; reflexivity. Qed.
